(** * willitgo: a reachability probe served over HTTP

    Shallow embedding of [main.go]: the dispatcher [Run], the direct probe
    ([plain], [plainTest.Check]) and the proxy-tunnel probe
    ([proxyHandler.ServeHTTP]), together with the pieces of Go's standard
    library the handlers call ([net.SplitHostPort], [net.JoinHostPort],
    [url.Values.Get], [http.Header.Set]/[Del]).

    Go strings are byte strings: they are modelled by [string] (a list of
    8-bit [ascii]).  Integers ([int], [time.Duration], [time.Time] as
    nanoseconds) are modelled by [Z]; no arithmetic of the program comes
    near the 64-bit bounds.  The network is an oracle ([World]); every
    call the handlers make on it is recorded in a trace. *)

From Stdlib Require Import String Ascii ZArith List Bool Lia DecimalString.
From stdpp Require Import base option gmap strings list fin_maps.

Local Open Scope string_scope.
Local Open Scope Z_scope.

(* ===================================================================== *)
(** ** Byte strings *)
(* ===================================================================== *)

Module Bytes.

(** [s[n:]] for [n <= len(s)]. *)
Fixpoint from (n : nat) (s : string) : string :=
  match n, s with
  | O, _ => s
  | S n', String _ s' => from n' s'
  | S _, EmptyString => EmptyString
  end.

(** [s[:n]] for [n <= len(s)]. *)
Fixpoint upto (n : nat) (s : string) : string :=
  match n, s with
  | O, _ => EmptyString
  | S n', String a s' => String a (upto n' s')
  | S _, EmptyString => EmptyString
  end.

(** [s[i:j]] for [i <= j <= len(s)]. *)
Definition slice (i j : nat) (s : string) : string :=
  upto (j - i) (from i s).

(** [s[i]]; [None] stands for the index-out-of-range panic. *)
Definition at_ (s : string) (i : nat) : option ascii := String.get i s.

(** [bytealg.IndexByteString]: first index of [c], Go's [-1] is [None]. *)
Fixpoint IndexByteString (s : string) (c : ascii) : option nat :=
  match s with
  | EmptyString => None
  | String a s' =>
      if Ascii.eqb a c then Some O
      else match IndexByteString s' c with
           | Some i => Some (S i)
           | None => None
           end
  end.

(** [bytealg.LastIndexByteString]: last index of [c]. *)
Fixpoint LastIndexByteString (s : string) (c : ascii) : option nat :=
  match s with
  | EmptyString => None
  | String a s' =>
      match LastIndexByteString s' c with
      | Some i => Some (S i)
      | None => if Ascii.eqb a c then Some O else None
      end
  end.

(** The byte [c] occurs in [s]. *)
Fixpoint occurs (c : ascii) (s : string) : bool :=
  match s with
  | EmptyString => false
  | String a s' => Ascii.eqb a c || occurs c s'
  end.

End Bytes.

(* ===================================================================== *)
(** ** package net: addresses *)
(* ===================================================================== *)

(** [net.AddrError]. *)
Record AddrError := { Err : string; Addr : string }.

(** The [Error] method of [AddrError]. *)
Definition AddrError_Error (e : AddrError) : string :=
  let s := Err e in
  if String.eqb (Addr e) "" then s else "address " ++ Addr e ++ ": " ++ s.

Definition missingPort : string := "missing port in address".
Definition tooManyColons : string := "too many colons in address".

Definition addrErr {A : Type} (addr why : string) : A + AddrError :=
  inr {| Err := why; Addr := addr |}.

(** The first half of [net.SplitHostPort]: the host, and the positions [j]
    and [k] from which a stray '[' respectively ']' is looked for. *)
Definition splitHost (hostport : string) (i : nat)
  : (string * nat * nat) + AddrError :=
  if match Bytes.at_ hostport 0 with
     | Some c => Ascii.eqb c "["
     | None => false
     end
  then
    (* Expect the first ']' just before the last ':'. *)
    match Bytes.IndexByteString hostport "]" with
    | None => addrErr hostport "missing ']' in address"
    | Some end_ =>
        if Nat.eqb (end_ + 1) (String.length hostport) then
          (* There can't be a ':' behind the ']' now. *)
          addrErr hostport missingPort
        else if Nat.eqb (end_ + 1) i then
          (* The expected result. *)
          inl (Bytes.slice 1 end_ hostport, 1%nat, (end_ + 1)%nat)
        else
          (* Either ']' isn't followed by a colon, or it is followed by a
             colon that is not the last one. *)
          match Bytes.at_ hostport (end_ + 1) with
          | Some c =>
              if Ascii.eqb c ":" then addrErr hostport tooManyColons
              else addrErr hostport missingPort
          | None => addrErr hostport missingPort
          end
    end
  else
    let host := Bytes.upto i hostport in
    match Bytes.IndexByteString host ":" with
    | Some _ => addrErr hostport tooManyColons
    | None => inl (host, O, O)
    end.

(** [net.SplitHostPort], after net/ipsock.go of the current Go releases:
    [inl (host, port)] when the returned error is nil, [inr err]
    otherwise.  The function looks at colons and square brackets only; it
    has no test for an empty host or an empty port. *)
Definition SplitHostPort (hostport : string) : (string * string) + AddrError :=
  (* The port starts after the last colon. *)
  match Bytes.LastIndexByteString hostport ":" with
  | None => addrErr hostport missingPort
  | Some i =>
      match splitHost hostport i with
      | inr e => inr e
      | inl (host, j, k) =>
          match Bytes.IndexByteString (Bytes.from j hostport) "[" with
          | Some _ => addrErr hostport "unexpected '[' in address"
          | None =>
              match Bytes.IndexByteString (Bytes.from k hostport) "]" with
              | Some _ => addrErr hostport "unexpected ']' in address"
              | None => inl (host, Bytes.from (i + 1) hostport)
              end
          end
      end
  end.

(** [net.JoinHostPort]. *)
Definition JoinHostPort (host port : string) : string :=
  (* We assume that host is a literal IPv6 address if host has colons. *)
  match Bytes.IndexByteString host ":" with
  | Some _ => "[" ++ host ++ "]:" ++ port
  | None => host ++ ":" ++ port
  end.

(** The target parser as the specification words it (section 4.1): split on
    the last colon, fail when there is no colon (an empty fragment has
    none), when the host is empty or when the port is empty.  It is only
    compared with [SplitHostPort]; no handler calls it. *)
Definition spec_parse_target (fragment : string) : option (string * string) :=
  match Bytes.LastIndexByteString fragment ":" with
  | None => None
  | Some i =>
      let host := Bytes.upto i fragment in
      let port := Bytes.from (i + 1) fragment in
      if String.eqb host "" || String.eqb port "" then None
      else Some (host, port)
  end.

(* ===================================================================== *)
(** ** package net/textproto and net/http: header maps *)
(* ===================================================================== *)

Definition byte_between (lo hi c : ascii) : bool :=
  (nat_of_ascii lo <=? nat_of_ascii c)%nat && (nat_of_ascii c <=? nat_of_ascii hi)%nat.

Definition isLower (c : ascii) : bool := byte_between "a" "z" c.
Definition isUpper (c : ascii) : bool := byte_between "A" "Z" c.
Definition isDigit (c : ascii) : bool := byte_between "0" "9" c.

(** [validHeaderFieldByte]: the token bytes of RFC 7230. *)
Definition validHeaderFieldByte (c : ascii) : bool :=
  isLower c || isUpper c || isDigit c
  || Bytes.occurs c "!#$%&'*+-.^_`|~".

(** ['a' - 'A']. *)
Definition toLower : nat := 32.

(** One step of the canonicalising loop of [canonicalMIMEHeaderKey]. *)
Definition canonicalByte (upper : bool) (c : ascii) : ascii :=
  if upper && isLower c then ascii_of_nat (nat_of_ascii c - toLower)
  else if negb upper && isUpper c then ascii_of_nat (nat_of_ascii c + toLower)
  else c.

(** The canonicalising loop of [canonicalMIMEHeaderKey]: first letter upper
    case, and upper case after each dash. *)
Fixpoint canonicalCase (upper : bool) (a : string) : string :=
  match a with
  | EmptyString => EmptyString
  | String c a' =>
      let c' := canonicalByte upper c in
      String c' (canonicalCase (Ascii.eqb c' "-") a')
  end.

Fixpoint allBytes (f : ascii -> bool) (a : string) : bool :=
  match a with
  | EmptyString => true
  | String c a' => f c && allBytes f a'
  end.

(** [canonicalMIMEHeaderKey]: a key with a byte that is no token byte is
    returned as it is (also when that byte is a space). *)
Definition canonicalMIMEHeaderKey (a : string) : string :=
  if allBytes validHeaderFieldByte a then canonicalCase true a else a.

(** The quick check at the head of [textproto.CanonicalMIMEHeaderKey]. *)
Fixpoint canonicalQuick (upper : bool) (rest s : string) : string :=
  match rest with
  | EmptyString => s
  | String c rest' =>
      if negb (validHeaderFieldByte c) then s
      else if upper && isLower c then canonicalMIMEHeaderKey s
      else if negb upper && isUpper c then canonicalMIMEHeaderKey s
      else canonicalQuick (Ascii.eqb c "-") rest' s
  end.

(** [textproto.CanonicalMIMEHeaderKey]. *)
Definition CanonicalMIMEHeaderKey (s : string) : string :=
  canonicalQuick true s s.

(** Header names do not depend on the case of their letters: the name in
    lower case. *)
Definition asciiLower (c : ascii) : ascii :=
  if isUpper c then ascii_of_nat (nat_of_ascii c + toLower) else c.

Fixpoint lowerString (s : string) : string :=
  match s with
  | EmptyString => EmptyString
  | String c s' => String (asciiLower c) (lowerString s')
  end.

(** [http.Header.Set]: replaces whatever values the key had. *)
Definition Header_Set (h : gmap string (list string)) (key value : string)
  : gmap string (list string) :=
  <[CanonicalMIMEHeaderKey key := [value]]> h.

(** [http.Header.Del]. *)
Definition Header_Del (h : gmap string (list string)) (key : string)
  : gmap string (list string) :=
  delete (CanonicalMIMEHeaderKey key) h.

(** [url.Values.Get]: the first value of the key, or the empty string. *)
Definition Values_Get (v : gmap string (list string)) (key : string) : string :=
  match v !! key with
  | Some (x :: _) => x
  | _ => ""
  end.

(** Lines 166-171 of [proxyHandler.ServeHTTP], inner loop. *)
Definition copyValues (k : string) (vals : list string)
    (h : gmap string (list string)) : gmap string (list string) :=
  fold_left (fun h v => Header_Set h k v) vals h.

(** Lines 166-171, outer loop.  [hdr] lists the entries of the map
    [res.Header] in the order in which the [range] statement visits them
    (Go leaves that order open). *)
Definition copyHeaders (hdr : list (string * list string))
    (h : gmap string (list string)) : gmap string (list string) :=
  fold_left (fun h kv => Header_Del (copyValues (fst kv) (snd kv) h) "content-length")
            hdr h.

(* ===================================================================== *)
(** ** Values of the program *)
(* ===================================================================== *)

Definition Duration := Z.
Definition Time := Z.
Definition Conn := nat.

Definition StatusOK : Z := 200.
Definition StatusBadRequest : Z := 400.
Definition StatusBadGateway : Z := 502.
Definition StatusServiceUnavailable : Z := 503.
Definition StatusGatewayTimeout : Z := 504.

(** [type result struct]. *)
Record result := { Status : string; Error : string; Proxy : string }.

(** [reslt.Status = s] and [reslt.Error = s]. *)
Definition set_Status (v : result) (s : string) : result :=
  {| Status := s; Error := Error v; Proxy := Proxy v |}.

Definition set_Error (v : result) (s : string) : result :=
  {| Status := Status v; Error := s; Proxy := Proxy v |}.

(** [utf8.DecodeRuneInString] on [String b rest], as far as the encoder of
    package [encoding/json] asks: the number of bytes of the rune at the
    head, and 0 when the head byte begins no valid sequence (the decoder
    then answers [RuneError] with size 1).  The bounds are those of the
    tables [first] and [acceptRanges] of package [unicode/utf8]. *)
Definition runeBytes (b : ascii) (rest : string) : nat :=
  let n := nat_of_ascii b in
  let continues := fun c => (128 <=? nat_of_ascii c)%nat && (nat_of_ascii c <=? 191)%nat in
  let second := fun (lo hi : nat) c =>
    (lo <=? nat_of_ascii c)%nat && (nat_of_ascii c <=? hi)%nat in
  if (n <? 128)%nat then 1%nat
  else if (n <? 194)%nat then 0%nat
  else if (n <? 224)%nat then
    match rest with
    | String s1 _ => if continues s1 then 2%nat else 0%nat
    | _ => 0%nat
    end
  else if (n <? 240)%nat then
    match rest with
    | String s1 (String s2 _) =>
        if second (if (n =? 224)%nat then 160%nat else 128%nat)
                  (if (n =? 237)%nat then 159%nat else 191%nat) s1
           && continues s2
        then 3%nat else 0%nat
    | _ => 0%nat
    end
  else if (n <? 245)%nat then
    match rest with
    | String s1 (String s2 (String s3 _)) =>
        if second (if (n =? 240)%nat then 144%nat else 128%nat)
                  (if (n =? 244)%nat then 143%nat else 191%nat) s1
           && continues s2 && continues s3
        then 4%nat else 0%nat
    | _ => 0%nat
    end
  else 0%nat.

(** The bytes of U+FFFD in UTF-8. *)
Definition RuneError : string :=
  String (ascii_of_nat 239) (String (ascii_of_nat 191) (String (ascii_of_nat 189) "")).

(** The text a JSON string written by [encoding/json] carries for the Go
    string [s], as a decoder reads it back: the bytes of [s], with U+FFFD
    for every byte that is no part of a valid UTF-8 sequence.  [copy] is
    the number of bytes that are left of the rune being copied. *)
Fixpoint jsonText (copy : nat) (s : string) : string :=
  match s with
  | EmptyString => EmptyString
  | String b rest =>
      match copy with
      | S n => String b (jsonText n rest)
      | O =>
          match runeBytes b rest with
          | O => RuneError ++ jsonText 0 rest
          | S n => String b (jsonText n rest)
          end
      end
  end.

(** [encoding/json] on a [result]: the members of the JSON object, with the
    text a decoder reads for each.  The struct tags give the names;
    [omitempty] drops an empty string. *)
Definition Marshal (v : result) : list (string * string) :=
  [("status", jsonText 0 (Status v))]
  ++ (if String.eqb (Error v) "" then [] else [("error", jsonText 0 (Error v))])
  ++ (if String.eqb (Proxy v) "" then [] else [("proxy", jsonText 0 (Proxy v))]).

(** A Go [error] as far as the handlers look at it: the text [Error()]
    gives, and, when its dynamic type implements [net.Error], what
    [Timeout()] reports. *)
Record error := { err_Error : string; err_netTimeout : option bool }.

(** [http.Response], the two fields the handler reads. *)
Record Response := { StatusCode : Z; Header : list (string * list string) }.

(** [http.Request]: [r.URL.Path] and the parsed [r.URL.Query()]. *)
Record Request := { Path : string; Query : gmap string (list string) }.

Record Dialer := { Dialer_Timeout : Duration; KeepAlive : Duration }.
Record plainTest := { plainTest_Dialer : Dialer }.
Record proxyHandler := { Timeout : Duration }.

(** What the network does.  Each call reports the time it took. *)
Record World := {
  world_Dial : Dialer -> string -> string -> Duration * (Conn + error);
  world_Write : Conn -> string -> Duration;
  world_ReadResponse : Conn -> Duration * (Response + error);
}.

(** An argument of [log.Println]: a text, or a duration to be printed. *)
Inductive logarg := LogStr (s : string) | LogDur (d : Duration).

(** What a handler does outside its response writer, in the order in which
    it does it: [d.Dial(network, address)], [c.SetDeadline(t)], a write of
    [data] to [c], [http.ReadResponse] on [c], [c.Close()], the start of
    the goroutine that drains and closes the body of the response read
    from [c], and [log.Println(args...)]. *)
Inductive event :=
| EvDial (d : Dialer) (network address : string)
| EvSetDeadline (c : Conn) (t : Time)
| EvWrite (c : Conn) (data : string)
| EvReadResponse (c : Conn)
| EvClose (c : Conn)
| EvGoDrain (c : Conn)
| EvLog (args : list logarg).

(** [http.ResponseWriter], as the server of package [net/http] gives it to
    a handler: the header map, the status of the response once its header
    is written, the JSON objects the handler has encoded to the writer,
    and the status codes of the interim (1xx) responses sent before. *)
Record ResponseWriter := {
  rw_Header : gmap string (list string);
  rw_code : option Z;
  rw_body : list (list (string * string));
  rw_interim : list Z;
}.

(** [checkWriteHeaderCode]: a status code has three digits. *)
Definition validCode (code : Z) : bool := (100 <=? code) && (code <=? 999).

(** The codes [WriteHeader] sends as an interim response: 1xx other than
    101 Switching Protocols. *)
Definition interimCode (code : Z) : bool :=
  (100 <=? code) && (code <=? 199) && negb (code =? 101).

(** [bodyAllowedForStatus]. *)
Definition bodyAllowedForStatus (status : Z) : bool :=
  negb ((100 <=? status) && (status <=? 199))
  && negb (status =? 204) && negb (status =? 304).

(** What the writer sends as the body for a request of method [method]:
    what was encoded to it, when the status of the response allows a body
    ([Write] answers [ErrBodyNotAllowed] otherwise, which [writeJSON] drops)
    and the request is no HEAD request (whose writes the writer takes and
    does not send). *)
Definition wireBody (method : string) (rw : ResponseWriter)
  : list (list (string * string)) :=
  match rw_code rw with
  | Some status =>
      if bodyAllowedForStatus status && negb (String.eqb method "HEAD")
      then rw_body rw else []
  | None => []
  end.

Record State := { now : Time; trace : list event; w : ResponseWriter }.

(* ===================================================================== *)
(** ** Effects: a state monad with panics *)
(* ===================================================================== *)

Inductive Outcome (A : Type) : Type :=
| Returned (a : A) (s : State)
| Panicked (msg : string) (s : State).
Arguments Returned {A} a s.
Arguments Panicked {A} msg s.

Definition M (A : Type) : Type := State -> Outcome A.

#[global] Instance M_ret : MRet M := fun A a s => Returned a s.

#[global] Instance M_bind : MBind M := fun A B f m s =>
  match m s with
  | Returned a s' => f a s'
  | Panicked msg s' => Panicked msg s'
  end.

Definition panic {A : Type} (msg : string) : M A := fun s => Panicked msg s.

(** The state an outcome ends in. *)
Definition final {A : Type} (o : Outcome A) : State :=
  match o with
  | Returned _ s => s
  | Panicked _ s => s
  end.

Definition returned {A : Type} (o : Outcome A) : bool :=
  match o with
  | Returned _ _ => true
  | Panicked _ _ => false
  end.

(** [defer d] followed by the rest [body] of the function: [d] runs when
    [body] returns and when it panics; a panic of [d] replaces the one in
    flight. *)
Definition defer {A : Type} (d : M unit) (body : M A) : M A := fun s =>
  match body s with
  | Returned a s' =>
      match d s' with
      | Returned _ s'' => Returned a s''
      | Panicked msg s'' => Panicked msg s''
      end
  | Panicked msg s' =>
      match d s' with
      | Returned _ s'' => Panicked msg s''
      | Panicked msg' s'' => Panicked msg' s''
      end
  end.

Definition emit (e : event) : M unit := fun s =>
  Returned tt {| now := now s; trace := trace s ++ [e]; w := w s |}.

(** The clock moves on by [d]. *)
Definition elapse (d : Duration) : M unit := fun s =>
  Returned tt {| now := now s + d; trace := trace s; w := w s |}.

(** [time.Now()]. *)
Definition time_Now : M Time := fun s => Returned (now s) s.

Definition onWriter (f : ResponseWriter -> ResponseWriter) : M unit := fun s =>
  Returned tt {| now := now s; trace := trace s; w := f (w s) |}.

(** [w.Header().Set(key, value)]. *)
Definition w_Header_Set (key value : string) : M unit :=
  onWriter (fun rw => {| rw_Header := Header_Set (rw_Header rw) key value;
                         rw_code := rw_code rw; rw_body := rw_body rw;
                         rw_interim := rw_interim rw |}).

(** [w.WriteHeader(code)] of the server's writer.  Once the header is
    written a further call does nothing.  Otherwise a code that has not
    three digits makes it panic; a 1xx code other than 101 is sent as an
    interim response and leaves the header unwritten; any other code
    becomes the status of the response. *)
Definition w_WriteHeader (code : Z) : M unit := fun s =>
  match rw_code (w s) with
  | Some _ => Returned tt s
  | None =>
      if validCode code then
        if interimCode code then
          Returned tt
            {| now := now s; trace := trace s;
               w := {| rw_Header := rw_Header (w s); rw_code := None;
                       rw_body := rw_body (w s);
                       rw_interim := rw_interim (w s) ++ [code] |} |}
        else
          Returned tt
            {| now := now s; trace := trace s;
               w := {| rw_Header := rw_Header (w s); rw_code := Some code;
                       rw_body := rw_body (w s);
                       rw_interim := rw_interim (w s) |} |}
      else
        Panicked ("invalid WriteHeader code "
                  ++ NilZero.string_of_int (Z.to_int code)) s
  end.

(** [json.NewEncoder(w).Encode(v)]: one [Write] of the encoded object,
    which writes the header with status 200 first when it is not written
    yet.  [rw_body] keeps the object handed over; [wireBody] says whether
    the writer sends it. *)
Definition w_Encode (v : result) : M unit :=
  onWriter (fun rw => {| rw_Header := rw_Header rw;
                         rw_code := match rw_code rw with
                                    | Some c => Some c
                                    | None => Some StatusOK
                                    end;
                         rw_body := rw_body rw ++ [Marshal v];
                         rw_interim := rw_interim rw |}).

(** [r.URL.Path[1:]]: slicing an empty string from 1 panics. *)
Definition Path_1 (r : Request) : M string :=
  match Path r with
  | EmptyString => panic "runtime error: slice bounds out of range [1:0]"
  | String _ rest => mret rest
  end.

(** [func writeJSON]. *)
Definition writeJSON (code : Z) (v : result) : M unit :=
  w_Header_Set "content-type" "application/json;charset=utf-8";;
  w_WriteHeader code;;
  w_Encode v.

(** [r.URL.Query().Get("proxy")]. *)
Definition proxyOf (r : Request) : string := Values_Get (Query r) "proxy".

(** [net.Dialer{Timeout: p.Timeout, KeepAlive: 0}]. *)
Definition dialerOf (p : proxyHandler) : Dialer :=
  {| Dialer_Timeout := Timeout p; KeepAlive := 0 |}.

(** The text of [fmt.Fprintf(c, "CONNECT %s:%s HTTP/1.1\n\n", host, port)]. *)
Definition connectRequest (host port : string) : string :=
  "CONNECT " ++ host ++ ":" ++ port ++ " HTTP/1.1"
  ++ String "010" (String "010" EmptyString).

(** [plainTest{Dialer: net.Dialer{KeepAlive: 0, Timeout: timeout}}]. *)
Definition checkerOf (timeout : Duration) : plainTest :=
  {| plainTest_Dialer := {| Dialer_Timeout := timeout; KeepAlive := 0 |} |}.

Section Handlers.

Variable net : World.

(** [Dialer.Dial]. *)
Definition Dialer_Dial (d : Dialer) (network address : string)
  : M (Conn + error) :=
  emit (EvDial d network address);;
  elapse (fst (world_Dial net d network address));;
  mret (snd (world_Dial net d network address)).

(** [c.Close()]. *)
Definition Conn_Close (c : Conn) : M unit := emit (EvClose c).

(** [c.SetDeadline(t)]. *)
Definition Conn_SetDeadline (c : Conn) (t : Time) : M unit :=
  emit (EvSetDeadline c t).

(** [fmt.Fprintf(c, ...)] with the formatted text [data]; the handler
    drops what it returns. *)
Definition Fprintf (c : Conn) (data : string) : M unit :=
  emit (EvWrite c data);;
  elapse (world_Write net c data).

(** [http.ReadResponse(bufio.NewReader(c), nil)]. *)
Definition ReadResponse (c : Conn) : M (Response + error) :=
  emit (EvReadResponse c);;
  elapse (fst (world_ReadResponse net c));;
  mret (snd (world_ReadResponse net c)).

(** [func (t plainTest) Check]. *)
Definition plainTest_Check (t : plainTest) (host port : string)
  : M (option error) :=
  dialed ← Dialer_Dial (plainTest_Dialer t) "tcp" (JoinHostPort host port);
  match dialed with
  | inr err => mret (Some err)
  | inl c => Conn_Close c;; mret None
  end.

(** [func (p proxyHandler) ServeHTTP]. *)
Definition proxyHandler_ServeHTTP (p : proxyHandler) (r : Request) : M unit :=
  let proxy := proxyOf r in
  fragment ← Path_1 r;
  match SplitHostPort fragment with
  | inr err =>
      writeJSON StatusBadRequest
        {| Status := "BAD_URL"; Error := AddrError_Error err; Proxy := proxy |}
  | inl (host, port) =>
      let dialer := dialerOf p in
      dialed ← Dialer_Dial dialer "tcp" proxy;
      match dialed with
      | inr err =>
          writeJSON StatusBadRequest
            {| Status := "PROXY_UNREACHABLE"; Error := err_Error err;
               Proxy := proxy |}
      | inl c =>
          defer (Conn_Close c)
            ((if 0 <? Timeout p
              then t ← time_Now; Conn_SetDeadline c (t + Timeout p)
              else mret tt);;
             Fprintf c (connectRequest host port);;
             read ← ReadResponse c;
             let reslt := {| Status := "OK"; Error := ""; Proxy := proxy |} in
             match read with
             | inr err =>
                 emit (EvLog [LogStr (err_Error err); LogStr "host"; LogStr host;
                              LogStr "port"; LogStr port;
                              LogStr "proxy"; LogStr proxy]);;
                 let status := StatusGatewayTimeout in
                 let reslt := set_Status reslt "PROXY_CONNECT_ERROR" in
                 let reslt := set_Error reslt (err_Error err) in
                 match err_netTimeout err with
                 | Some timeout =>
                     (* case net.Error *)
                     let status := StatusServiceUnavailable in
                     let reslt := set_Status reslt "HOST_CONNECT_FAIL" in
                     '(status, reslt) ←
                       (if timeout
                        then emit (EvLog [LogStr (err_Error err)]);;
                             mret (StatusGatewayTimeout,
                                   set_Status reslt "PROXY_CONNECT_ERROR")
                        else mret (status, reslt));
                     let reslt :=
                       set_Error reslt ("net error: " ++ err_Error err) in
                     writeJSON status reslt
                 | None =>
                     (* default *)
                     writeJSON status reslt
                 end
             | inl res =>
                 emit (EvGoDrain c);;
                 onWriter (fun rw =>
                   {| rw_Header := copyHeaders (Header res) (rw_Header rw);
                      rw_code := rw_code rw; rw_body := rw_body rw;
                      rw_interim := rw_interim rw |});;
                 writeJSON (StatusCode res) reslt
             end)
      end
  end.

(** The handler [plain] inside [func Run]. *)
Definition plain (checker : plainTest) (r : Request) : M unit :=
  let write := fun (status : string) (code : Z) =>
    writeJSON code {| Status := status; Error := ""; Proxy := "" |} in
  fragment ← Path_1 r;
  match SplitHostPort fragment with
  | inr err =>
      writeJSON StatusBadRequest
        {| Status := "INVALID_HOST"; Error := AddrError_Error err; Proxy := "" |}
  | inl (host, port) =>
      failed ← plainTest_Check checker host port;
      match failed with
      | Some err =>
          writeJSON StatusBadGateway
            {| Status := "HOST_CONNECT_FAIL"; Error := err_Error err;
               Proxy := "" |}
      | None => write "OK" StatusOK
      end
  end.

(** The function [Run] defers: one log line per request. *)
Definition logRequest (r : Request) (start : Time) : M unit :=
  fragment ← Path_1 r;
  t ← time_Now;
  emit (EvLog [LogStr fragment; LogStr (proxyOf r); LogDur (t - start)]).

(** The handler [func Run] returns. *)
Definition Run (timeout : Duration) (r : Request) : M unit :=
  let withProxy := {| Timeout := timeout |} in
  let checker := checkerOf timeout in
  start ← time_Now;
  defer (logRequest r start)
    (if negb (String.eqb (proxyOf r) "")
     then proxyHandler_ServeHTTP withProxy r
     else plain checker r).

End Handlers.

(** A fresh response writer and the state a request starts in. *)
Definition newWriter : ResponseWriter :=
  {| rw_Header := ∅; rw_code := None; rw_body := []; rw_interim := [] |}.

Definition initial (t0 : Time) : State :=
  {| now := t0; trace := []; w := newWriter |}.

(** The handler answered with status [code] and encoded [v] to the writer,
    and nothing else. *)
Definition responded (s : State) (code : Z) (v : result) : Prop :=
  rw_code (w s) = Some code /\ rw_body (w s) = [Marshal v].

(** The JSON object has a member named [key]. *)
Definition hasMember (key : string) (obj : list (string * string)) : Prop :=
  key ∈ obj.*1.

(** The deadlines set on connection [c], oldest first. *)
Definition deadlines (c : Conn) (tr : list event) : list Time :=
  flat_map (fun e => match e with
                     | EvSetDeadline c' t => if Nat.eqb c c' then [t] else []
                     | _ => []
                     end) tr.

(** One budget for dial, write and read: the only deadline of the
    connection is the moment the probe started plus the timeout, so that
    the time the dial took is taken off what is left for write and read. *)
Definition sharedBudget (start : Time) (timeout : Duration) (c : Conn)
    (tr : list event) : Prop :=
  deadlines c tr = [start + timeout].

(** Errors of the network carry a text, as those of package [net] and of
    [http.ReadResponse] do. *)
Definition errorsHaveText (net : World) : Prop :=
  (forall d network address err,
      snd (world_Dial net d network address) = inr err -> err_Error err <> "")
  /\ (forall c err,
      snd (world_ReadResponse net c) = inr err -> err_Error err <> "").

(** Every key of the map is the canonical form of some name, as the keys
    [http.Header.Set] writes are. *)
Definition canonicalKeys (h : gmap string (list string)) : Prop :=
  forall k, is_Some (h !! k) -> exists k0, k = CanonicalMIMEHeaderKey k0.

(* ===================================================================== *)
(** ** Concrete worlds and requests *)
(* ===================================================================== *)

(** An error whose type implements [net.Error]. *)
Definition netError (timeout : bool) (text : string) : error :=
  {| err_Error := text; err_netTimeout := Some timeout |}.

(** An error of any other type. *)
Definition otherError (text : string) : error :=
  {| err_Error := text; err_netTimeout := None |}.

(** A network in which every dial takes [dialTime] and ends as [dial], and
    every read of a response ends as [read]. *)
Definition world (dialTime : Duration) (dial : Conn + error)
    (read : Response + error) : World :=
  {| world_Dial := fun _ _ _ => (dialTime, dial);
     world_Write := fun _ _ => 0;
     world_ReadResponse := fun _ => (0, read) |}.

(** [GET path?proxy=v1&proxy=v2...]. *)
Definition viaProxy (path : string) (proxy : list string) : Request :=
  {| Path := path; Query := {[ "proxy" := proxy ]} |}.

(** [GET path]. *)
Definition direct (path : string) : Request :=
  {| Path := path; Query := ∅ |}.

Definition second : Duration := 1000000000.

(* ===================================================================== *)
(** ** Reading a trace *)
(* ===================================================================== *)

(** The dials of a trace, oldest first. *)
Definition dials (tr : list event) : list (Dialer * string * string) :=
  flat_map (fun e => match e with
                     | EvDial d network address => [(d, network, address)]
                     | _ => []
                     end) tr.

(** The connections a trace closes, oldest first. *)
Definition closes (tr : list event) : list Conn :=
  flat_map (fun e => match e with
                     | EvClose c => [c]
                     | _ => []
                     end) tr.

(** What a trace writes to connections, oldest first. *)
Definition writes (tr : list event) : list (Conn * string) :=
  flat_map (fun e => match e with
                     | EvWrite c data => [(c, data)]
                     | _ => []
                     end) tr.

(** The lines a trace logs, oldest first. *)
Definition logs (tr : list event) : list (list logarg) :=
  flat_map (fun e => match e with
                     | EvLog args => [args]
                     | _ => []
                     end) tr.

(** The reasons [net.SplitHostPort] gives for a failure. *)
Definition splitReasons : list string :=
  [missingPort; tooManyColons; "missing ']' in address";
   "unexpected '[' in address"; "unexpected ']' in address"].

(** The pairs of HTTP status and result status the handlers answer with
    when they do not pass on the status of a proxy. *)
Definition fixedAnswers : list (Z * string) :=
  [(StatusOK, "OK"); (StatusBadRequest, "INVALID_HOST");
   (StatusBadGateway, "HOST_CONNECT_FAIL"); (StatusBadRequest, "BAD_URL");
   (StatusBadRequest, "PROXY_UNREACHABLE");
   (StatusGatewayTimeout, "PROXY_CONNECT_ERROR");
   (StatusServiceUnavailable, "HOST_CONNECT_FAIL")].

(** The handler [Run] picks for a request. *)
Definition picked (net : World) (timeout : Duration) (r : Request) : M unit :=
  if negb (String.eqb (proxyOf r) "")
  then proxyHandler_ServeHTTP net {| Timeout := timeout |} r
  else plain net (checkerOf timeout) r.

(** The content type of every answer. *)
Definition jsonType : string := "application/json;charset=utf-8".

(* ===================================================================== *)
(** * Properties *)
(* ===================================================================== *)

(** Decides [validCode] and [interimCode] on the codes that are numbers. *)
Ltac eval_codes :=
  repeat match goal with
         | |- context [validCode ?c] =>
             let b := eval cbv in (validCode c) in
             lazymatch b with
             | true => change (validCode c) with true
             | false => change (validCode c) with false
             end
         | |- context [interimCode ?c] =>
             let b := eval cbv in (interimCode c) in
             lazymatch b with
             | true => change (interimCode c) with true
             | false => change (interimCode c) with false
             end
         end;
  cbv beta iota.

(** Unfolds a handler down to the matches on the request and on what the
    network answers. *)
Ltac run_handler :=
  cbv [proxyHandler_ServeHTTP plain Run logRequest plainTest_Check Dialer_Dial
       ReadResponse Fprintf Conn_Close Conn_SetDeadline writeJSON w_Header_Set
       w_WriteHeader w_Encode onWriter emit elapse time_Now Path_1 defer panic
       mbind mret M_bind M_ret initial final returned responded newWriter
       set_Status set_Error proxyOf dialerOf connectRequest checkerOf
       now trace w rw_Header rw_code rw_body rw_interim];
  eval_codes.

(** Closes [x ∉ [e1; ...; en]] when [x] differs from each by a constructor. *)
Ltac not_among :=
  rewrite ?elem_of_cons, ?elem_of_nil;
  let H := fresh in
  intros H; repeat (destruct H as [H|H]; [discriminate H|]); exact H.

(** The ways a read of the proxy's response ends, and for a response what
    [WriteHeader] makes of its status code. *)
Ltac read_cases net c :=
  let res := fresh "res" in
  let err := fresh "err" in
  destruct (snd (world_ReadResponse net c)) as [res|err];
  [destruct (validCode (StatusCode res)) eqn:?;
   [destruct (interimCode (StatusCode res)) eqn:?|]
  |destruct (err_netTimeout err) as [[]|]].

(** The same for a response at hand. *)
Ltac code_cases res :=
  destruct (validCode (StatusCode res)) eqn:?;
  [destruct (interimCode (StatusCode res)) eqn:?|].

(** Case analysis on the innermost matches of the goal. *)
Ltac split_cases :=
  repeat match goal with
         | |- context [match ?x with _ => _ end] =>
             lazymatch x with
             | context [match _ with _ => _ end] => fail
             | _ => destruct x eqn:?
             end
         end.

(** ** The parser on the addresses of the test suite *)

Example SplitHostPort_xyz :
  SplitHostPort "xyz" = inr {| Err := missingPort; Addr := "xyz" |}.
Proof. reflexivity. Qed.

Example SplitHostPort_no_port :
  SplitHostPort "127.0.0.1" = inr {| Err := missingPort; Addr := "127.0.0.1" |}.
Proof. reflexivity. Qed.

Example SplitHostPort_v4 : SplitHostPort "127.0.0.1:1" = inl ("127.0.0.1", "1").
Proof. reflexivity. Qed.

Example SplitHostPort_v6 : SplitHostPort "[::1]:80" = inl ("::1", "80").
Proof. reflexivity. Qed.

Example AddrError_Error_abc :
  AddrError_Error {| Err := missingPort; Addr := "abc" |}
  = "address abc: missing port in address".
Proof. reflexivity. Qed.

(** ** Header maps *)

Lemma canonical_content_type :
  CanonicalMIMEHeaderKey "content-type" = "Content-Type".
Proof. reflexivity. Qed.

Lemma canonical_content_length :
  CanonicalMIMEHeaderKey "content-length" = "Content-Length".
Proof. reflexivity. Qed.

Lemma lookup_Header_Set h key value k :
  Header_Set h key value !! k =
  if decide (CanonicalMIMEHeaderKey key = k) then Some [value] else h !! k.
Proof. unfold Header_Set. apply lookup_insert. Qed.

Lemma lookup_Header_Del h key k :
  Header_Del h key !! k =
  if decide (CanonicalMIMEHeaderKey key = k) then None else h !! k.
Proof. unfold Header_Del. apply lookup_delete. Qed.

Lemma canonicalCase_cons upper c a :
  canonicalCase upper (String c a) =
  String (canonicalByte upper c)
         (canonicalCase (Ascii.eqb (canonicalByte upper c) "-") a).
Proof. reflexivity. Qed.

Lemma allBytes_app f s t : allBytes f (s ++ t) = allBytes f s && allBytes f t.
Proof.
  induction s as [|c s IH]; simpl; [reflexivity|].
  rewrite IH. apply andb_assoc.
Qed.

Lemma append_snoc (pre : string) (c : ascii) (rest : string) :
  (pre ++ String c "") ++ rest = pre ++ String c rest.
Proof.
  induction pre as [|a pre IH]; [reflexivity|].
  change (String a ((pre ++ String c "") ++ rest) = String a (pre ++ String c rest)).
  by rewrite IH.
Qed.

(** The quick check answers as the full canonicalisation does: [pre] is the
    part already seen, found canonical. *)
Lemma canonicalQuick_spec upper rest pre :
  allBytes validHeaderFieldByte pre = true ->
  canonicalCase true (pre ++ rest) = pre ++ canonicalCase upper rest ->
  canonicalQuick upper rest (pre ++ rest) = canonicalMIMEHeaderKey (pre ++ rest).
Proof.
  revert upper pre. induction rest as [|c rest IH]; intros upper pre Hpre Hcan.
  - simpl. unfold canonicalMIMEHeaderKey. rewrite Hcan.
    simpl. by destruct (allBytes validHeaderFieldByte (pre ++ "")).
  - cbn [canonicalQuick].
    destruct (validHeaderFieldByte c) eqn:Hv; cbn [negb].
    + destruct (upper && isLower c) eqn:H1; [reflexivity|].
      destruct (negb upper && isUpper c) eqn:H2; [reflexivity|].
      assert (Hc : canonicalByte upper c = c).
      { unfold canonicalByte. by rewrite H1, H2. }
      rewrite <- append_snoc. apply IH.
      * rewrite allBytes_app, Hpre. simpl. by rewrite Hv.
      * rewrite !append_snoc, Hcan, canonicalCase_cons, Hc. reflexivity.
    + unfold canonicalMIMEHeaderKey. rewrite allBytes_app. simpl.
      rewrite Hv. simpl. by rewrite andb_false_r.
Qed.

Lemma CanonicalMIMEHeaderKey_spec s :
  CanonicalMIMEHeaderKey s =
  if allBytes validHeaderFieldByte s then canonicalCase true s else s.
Proof. apply (canonicalQuick_spec true s ""); reflexivity. Qed.

Lemma canonicalByte_fold (upper : bool) (c : ascii) :
  let c' := canonicalByte upper c in
  let d := asciiLower c' in
  isLower d || Ascii.eqb d "-" = true -> c' = canonicalByte upper d.
Proof.
  destruct upper; destruct c as [[] [] [] [] [] [] [] []];
    vm_compute; intros H; try reflexivity; discriminate H.
Qed.

Lemma asciiLower_valid (c : ascii) :
  isLower (asciiLower c) || Ascii.eqb (asciiLower c) "-" = true ->
  validHeaderFieldByte c = true.
Proof.
  destruct c as [[] [] [] [] [] [] [] []];
    vm_compute; intros H; try reflexivity; discriminate H.
Qed.

Lemma canonicalCase_fold upper k t :
  lowerString (canonicalCase upper k) = t ->
  allBytes (fun d => isLower d || Ascii.eqb d "-") t = true ->
  canonicalCase upper k = canonicalCase upper t.
Proof.
  revert upper t. induction k as [|c k IH]; intros upper t Hl Ht.
  - simpl in Hl. by subst t.
  - rewrite canonicalCase_cons in Hl. cbn [lowerString] in Hl. subst t.
    cbn [allBytes] in Ht. apply andb_prop in Ht as [Hd Ht].
    rewrite !canonicalCase_cons.
    rewrite <- (canonicalByte_fold upper c Hd).
    f_equal. by apply IH.
Qed.

Lemma lowerString_valid k :
  allBytes (fun d => isLower d || Ascii.eqb d "-") (lowerString k) = true ->
  allBytes validHeaderFieldByte k = true.
Proof.
  induction k as [|c k IH]; simpl; [reflexivity|].
  intros H. apply andb_prop in H as [Hc Hk].
  by rewrite (asciiLower_valid c Hc), IH.
Qed.

(** A canonical key that reads content-length, whatever the case of its
    letters, is [Content-Length]. *)
Lemma canonical_fold_content_length k :
  lowerString (CanonicalMIMEHeaderKey k) = "content-length" ->
  CanonicalMIMEHeaderKey k = "Content-Length".
Proof.
  rewrite CanonicalMIMEHeaderKey_spec.
  destruct (allBytes validHeaderFieldByte k) eqn:Hv; intros Hl.
  - by rewrite (canonicalCase_fold true k "content-length" Hl).
  - rewrite lowerString_valid in Hv; [discriminate|]. by rewrite Hl.
Qed.

Lemma canonicalKeys_empty : canonicalKeys ∅.
Proof. intros k [x Hx]. by rewrite lookup_empty in Hx. Qed.

Lemma canonicalKeys_Set h key value :
  canonicalKeys h -> canonicalKeys (Header_Set h key value).
Proof.
  intros Hh k. rewrite lookup_Header_Set.
  destruct (decide (CanonicalMIMEHeaderKey key = k)) as [<-|_]; [eauto|apply Hh].
Qed.

Lemma canonicalKeys_Del h key :
  canonicalKeys h -> canonicalKeys (Header_Del h key).
Proof.
  intros Hh k. rewrite lookup_Header_Del.
  destruct (decide (CanonicalMIMEHeaderKey key = k)); [|apply Hh].
  intros [x Hx]. discriminate Hx.
Qed.

Lemma canonicalKeys_copyValues k vals h :
  canonicalKeys h -> canonicalKeys (copyValues k vals h).
Proof.
  unfold copyValues. revert h.
  induction vals as [|v vals IH]; intros h Hh; simpl; [exact Hh|].
  by apply IH, canonicalKeys_Set.
Qed.

Lemma canonicalKeys_copyHeaders hdr h :
  canonicalKeys h -> canonicalKeys (copyHeaders hdr h).
Proof.
  unfold copyHeaders. revert h.
  induction hdr as [|[k vals] hdr IH]; intros h Hh; simpl; [exact Hh|].
  by apply IH, canonicalKeys_Del, canonicalKeys_copyValues.
Qed.

(** In a map of canonical keys, no entry under [Content-Length] means no
    entry under that name in any case. *)
Lemma no_content_length_any_case h k :
  canonicalKeys h ->
  h !! "Content-Length" = None ->
  lowerString k = "content-length" ->
  h !! k = None.
Proof.
  intros Hh Hcl Hk. destruct (h !! k) as [x|] eqn:Hx; [|reflexivity].
  destruct (Hh k) as [k0 ->]; [by eexists|].
  rewrite (canonical_fold_content_length k0 Hk) in Hx. congruence.
Qed.

Lemma copyValues_other k vals h k' :
  CanonicalMIMEHeaderKey k <> k' -> copyValues k vals h !! k' = h !! k'.
Proof.
  intros Hne. unfold copyValues. revert h.
  induction vals as [|v vals IH]; intros h; simpl; [reflexivity|].
  rewrite IH, lookup_Header_Set. by rewrite decide_False.
Qed.

Lemma copyValues_last k vals h v :
  last vals = Some v ->
  copyValues k vals h !! CanonicalMIMEHeaderKey k = Some [v].
Proof.
  unfold copyValues. revert h.
  induction vals as [|x vals IH]; intros h Hlast; [discriminate|].
  destruct vals as [|y vals].
  - inversion Hlast; subst. simpl. rewrite lookup_Header_Set.
    by rewrite decide_True.
  - simpl in *. apply IH. exact Hlast.
Qed.

(** After the copying loop the outbound map has no entry under the key
    [Content-Length], whatever the proxy sent and in whatever order the
    entries are visited. *)
Lemma copyHeaders_no_content_length hdr h :
  h !! "Content-Length" = None ->
  copyHeaders hdr h !! "Content-Length" = None.
Proof.
  unfold copyHeaders. revert h.
  induction hdr as [|[k vals] hdr IH]; intros h Hh; simpl; [exact Hh|].
  apply IH. rewrite lookup_Header_Del, canonical_content_length.
  by rewrite decide_True.
Qed.

Lemma copyHeaders_other hdr h k :
  (forall k', k' ∈ hdr.*1 -> CanonicalMIMEHeaderKey k' <> k) ->
  k <> "Content-Length" ->
  copyHeaders hdr h !! k = h !! k.
Proof.
  unfold copyHeaders. revert h.
  induction hdr as [|[k' vals] hdr IH]; intros h Hk Hcl; simpl; [reflexivity|].
  rewrite IH.
  - rewrite lookup_Header_Del, canonical_content_length.
    rewrite decide_False by congruence.
    apply copyValues_other, Hk. simpl. apply elem_of_cons. by left.
  - intros k'' Hin. apply Hk. simpl. apply elem_of_cons. by right.
  - exact Hcl.
Qed.

(** A header of the reply ends up on the outbound map with its last value. *)
Lemma copyHeaders_lookup hdr h k vals v :
  NoDup hdr.*1 ->
  (forall k', k' ∈ hdr.*1 -> CanonicalMIMEHeaderKey k' = k') ->
  (k, vals) ∈ hdr ->
  last vals = Some v ->
  k <> "Content-Length" ->
  copyHeaders hdr h !! k = Some [v].
Proof.
  unfold copyHeaders. revert h.
  induction hdr as [|[k' vals'] hdr IH]; intros h Hnd Hcan Hin Hlast Hcl.
  - by apply elem_of_nil in Hin.
  - simpl in Hnd. apply NoDup_cons in Hnd as [Hnotin Hnd].
    apply elem_of_cons in Hin as [Heq|Hin].
    + inversion Heq; subst k' vals'. simpl.
      fold (copyHeaders hdr (Header_Del (copyValues k vals h) "content-length")).
      rewrite copyHeaders_other.
      * rewrite lookup_Header_Del, canonical_content_length.
        rewrite decide_False by congruence.
        pose proof (copyValues_last k vals h v Hlast) as Hv.
        rewrite Hcan in Hv by (simpl; apply elem_of_cons; by left).
        exact Hv.
      * intros k'' Hk''. rewrite Hcan by (simpl; apply elem_of_cons; by right).
        intros ->. contradiction.
      * exact Hcl.
    + simpl. apply IH; try assumption.
      intros k'' Hk''. apply Hcan. simpl. apply elem_of_cons. by right.
Qed.

(** ** Deferred calls *)

(** A deferred call runs however the rest of the function ends. *)
Lemma defer_final {A : Type} (d : M unit) (body : M A) (s : State) :
  final (defer d body s) = final (d (final (body s))).
Proof.
  unfold defer. destruct (body s) as [a s'|msg s']; simpl;
    destruct (d s') as [[] s''|msg' s'']; reflexivity.
Qed.

(** [defer c.Close()]: the connection is closed last, also when the rest of
    the function panics. *)
Lemma defer_Close_last {A : Type} (c : Conn) (body : M A) (s : State) :
  trace (final (defer (emit (EvClose c)) body s))
  = (trace (final (body s)) ++ [EvClose c])%list.
Proof. rewrite defer_final. reflexivity. Qed.

(** ** The proxy-tunnel probe *)

Section Proxy.

Variable net : World.
Variable p : proxyHandler.
Variable r : Request.
Variable t0 : Time.

(** C7. On the proxy path a target that does not parse is answered with
    400 and status BAD_URL, the text of the parse error and the proxy
    address of the request, and the trace stays empty: the proxy is not
    dialled. *)
Theorem proxy_bad_target (c0 : ascii) (fragment : string) (e : AddrError) :
  Path r = String c0 fragment ->
  SplitHostPort fragment = inr e ->
  returned (proxyHandler_ServeHTTP net p r (initial t0)) = true
  /\ responded (final (proxyHandler_ServeHTTP net p r (initial t0)))
       StatusBadRequest
       {| Status := "BAD_URL"; Error := AddrError_Error e; Proxy := proxyOf r |}
  /\ trace (final (proxyHandler_ServeHTTP net p r (initial t0))) = []
  /\ 400 <= StatusBadRequest < 500.
Proof.
  intros HP HS. run_handler. rewrite HP, HS.
  repeat split; reflexivity || (unfold StatusBadRequest; lia).
Qed.

(** C6. When the dial of the proxy fails the answer is 400 with status
    PROXY_UNREACHABLE, the text of the dial error and the proxy address as
    given; the dial is the only event on the network. *)
Theorem proxy_dial_failure
    (c0 : ascii) (fragment host port : string) (err : error) :
  Path r = String c0 fragment ->
  SplitHostPort fragment = inl (host, port) ->
  snd (world_Dial net (dialerOf p) "tcp" (proxyOf r)) = inr err ->
  returned (proxyHandler_ServeHTTP net p r (initial t0)) = true
  /\ responded (final (proxyHandler_ServeHTTP net p r (initial t0)))
       StatusBadRequest
       {| Status := "PROXY_UNREACHABLE"; Error := err_Error err;
          Proxy := proxyOf r |}
  /\ trace (final (proxyHandler_ServeHTTP net p r (initial t0)))
     = [EvDial (dialerOf p) "tcp" (proxyOf r)]
  /\ 400 <= StatusBadRequest < 500.
Proof.
  intros HP HS HD. revert HD. run_handler. intros HD. rewrite HP, HS, HD.
  repeat split; reflexivity || (unfold StatusBadRequest; lia).
Qed.

(** C1. When reading the proxy's response fails: an error that is no
    [net.Error] gives 504 and PROXY_CONNECT_ERROR, a [net.Error] that is no
    timeout gives 503 and HOST_CONNECT_FAIL, a [net.Error] that is a
    timeout gives 504 and PROXY_CONNECT_ERROR. *)
Theorem proxy_read_failure
    (c0 : ascii) (fragment host port : string) (c : Conn) (err : error) :
  Path r = String c0 fragment ->
  SplitHostPort fragment = inl (host, port) ->
  snd (world_Dial net (dialerOf p) "tcp" (proxyOf r)) = inl c ->
  snd (world_ReadResponse net c) = inr err ->
  returned (proxyHandler_ServeHTTP net p r (initial t0)) = true
  /\ match err_netTimeout err with
     | None =>
         responded (final (proxyHandler_ServeHTTP net p r (initial t0)))
           StatusGatewayTimeout
           {| Status := "PROXY_CONNECT_ERROR"; Error := err_Error err;
              Proxy := proxyOf r |}
     | Some false =>
         responded (final (proxyHandler_ServeHTTP net p r (initial t0)))
           StatusServiceUnavailable
           {| Status := "HOST_CONNECT_FAIL";
              Error := "net error: " ++ err_Error err; Proxy := proxyOf r |}
     | Some true =>
         responded (final (proxyHandler_ServeHTTP net p r (initial t0)))
           StatusGatewayTimeout
           {| Status := "PROXY_CONNECT_ERROR";
              Error := "net error: " ++ err_Error err; Proxy := proxyOf r |}
     end
  /\ StatusGatewayTimeout = 504 /\ StatusServiceUnavailable = 503.
Proof.
  intros HP HS HD HR. revert HD. run_handler. intros HD. rewrite HP, HS, HD.
  destruct (0 <? Timeout p); rewrite HR;
    destruct (err_netTimeout err) as [[]|]; repeat split; reflexivity.
Qed.

(** C3, as the code has it. When the proxy's response is read and parsed,
    the outbound header map has no Content-Length entry, in whatever case
    the name is written; and when its status code has three digits and is
    no interim 1xx code, the handler returns, the status of the answer is
    that code, and the result encoded is OK with the proxy address. *)
Theorem proxy_success
    (c0 : ascii) (fragment host port : string) (c : Conn) (res : Response) :
  Path r = String c0 fragment ->
  SplitHostPort fragment = inl (host, port) ->
  snd (world_Dial net (dialerOf p) "tcp" (proxyOf r)) = inl c ->
  snd (world_ReadResponse net c) = inl res ->
  (forall k,
      lowerString k = "content-length" ->
      rw_Header (w (final (proxyHandler_ServeHTTP net p r (initial t0)))) !! k
      = None)
  /\ (validCode (StatusCode res) = true ->
      interimCode (StatusCode res) = false ->
      returned (proxyHandler_ServeHTTP net p r (initial t0)) = true
      /\ responded (final (proxyHandler_ServeHTTP net p r (initial t0)))
           (StatusCode res)
           {| Status := "OK"; Error := ""; Proxy := proxyOf r |}).
Proof.
  intros HP HS HD HR. revert HD. run_handler. intros HD. rewrite HP, HS, HD.
  destruct (0 <? Timeout p); rewrite HR; code_cases res;
    (split; [|repeat split; intros; try discriminate; try reflexivity]).
  all: intros k Hk; apply no_content_length_any_case; try exact Hk.
  all: try (apply canonicalKeys_Set, canonicalKeys_copyHeaders,
            canonicalKeys_empty).
  all: rewrite lookup_Header_Set, canonical_content_type.
  all: rewrite decide_False by discriminate.
  all: apply copyHeaders_no_content_length; apply lookup_empty.
Qed.

(** An interim 1xx code is three digits. *)
Lemma interimCode_valid (code : Z) : interimCode code = true -> validCode code = true.
Proof.
  unfold interimCode, validCode. intros H.
  apply andb_prop in H as [H _]. apply andb_prop in H as [H1 H2].
  rewrite H1. cbn [andb]. apply Z.leb_le in H2. apply Z.leb_le. lia.
Qed.

(** The other status codes of a parsed response: an interim 1xx code is
    sent as an interim response and the answer has status 200; a code that
    has not three digits makes the handler panic in [WriteHeader], with no
    status written and no result encoded. *)
Lemma proxy_status_unsendable
    (c0 : ascii) (fragment host port : string) (c : Conn) (res : Response) :
  Path r = String c0 fragment ->
  SplitHostPort fragment = inl (host, port) ->
  snd (world_Dial net (dialerOf p) "tcp" (proxyOf r)) = inl c ->
  snd (world_ReadResponse net c) = inl res ->
  (interimCode (StatusCode res) = true ->
   returned (proxyHandler_ServeHTTP net p r (initial t0)) = true
   /\ responded (final (proxyHandler_ServeHTTP net p r (initial t0)))
        StatusOK
        {| Status := "OK"; Error := ""; Proxy := proxyOf r |}
   /\ rw_interim (w (final (proxyHandler_ServeHTTP net p r (initial t0))))
      = [StatusCode res])
  /\ (validCode (StatusCode res) = false ->
      returned (proxyHandler_ServeHTTP net p r (initial t0)) = false
      /\ rw_code (w (final (proxyHandler_ServeHTTP net p r (initial t0)))) = None
      /\ rw_body (w (final (proxyHandler_ServeHTTP net p r (initial t0)))) = []).
Proof.
  intros HP HS HD HR. revert HD. run_handler. intros HD. rewrite HP, HS, HD.
  pose proof (interimCode_valid (StatusCode res)) as Hvi.
  destruct (0 <? Timeout p); rewrite HR;
    destruct (validCode (StatusCode res)) eqn:Hv;
    destruct (interimCode (StatusCode res)) eqn:Hi;
    try (specialize (Hvi eq_refl); discriminate Hvi);
    repeat split; intros; try discriminate; reflexivity.
Qed.

(** C8. Once the proxy is dialled, the last event of the handler closes
    the connection, which no earlier event did, on every way out: whether
    the read fails, however the failure is classified, on success, and
    when the handler leaves by the panic of [WriteHeader]. *)
Theorem proxy_conn_closed
    (c0 : ascii) (fragment host port : string) (c : Conn) :
  Path r = String c0 fragment ->
  SplitHostPort fragment = inl (host, port) ->
  snd (world_Dial net (dialerOf p) "tcp" (proxyOf r)) = inl c ->
  exists before,
    trace (final (proxyHandler_ServeHTTP net p r (initial t0)))
    = (before ++ [EvClose c])%list
    /\ EvClose c ∉ before.
Proof.
  intros HP HS HD. revert HD. run_handler. intros HD. rewrite HP, HS, HD.
  destruct (0 <? Timeout p);
    (destruct (snd (world_ReadResponse net c)) as [res|err];
     [destruct (validCode (StatusCode res));
      [destruct (interimCode (StatusCode res))|]
     |destruct (err_netTimeout err) as [[]|]]);
    (eexists; split; [reflexivity|]);
    cbn [app]; not_among.
Qed.

(** C4, as the code has it. The timeout of the handler is the connect
    timeout of the dial, and, when positive, it is added to the time at
    which the dial has returned to give the one deadline of the connection:
    set before the request is written and the response read, and not set
    again. *)
Theorem proxy_deadline
    (c0 : ascii) (fragment host port : string) (c : Conn) :
  Path r = String c0 fragment ->
  SplitHostPort fragment = inl (host, port) ->
  snd (world_Dial net (dialerOf p) "tcp" (proxyOf r)) = inl c ->
  0 < Timeout p ->
  Dialer_Timeout (dialerOf p) = Timeout p
  /\ exists rest,
       trace (final (proxyHandler_ServeHTTP net p r (initial t0))) =
         EvDial (dialerOf p) "tcp" (proxyOf r)
         :: EvSetDeadline c
              (t0 + fst (world_Dial net (dialerOf p) "tcp" (proxyOf r))
               + Timeout p)
         :: EvWrite c (connectRequest host port)
         :: EvReadResponse c
         :: rest
       /\ deadlines c rest = [].
Proof.
  intros HP HS HD Hpos. split; [reflexivity|].
  revert HD. run_handler. intros HD. rewrite HP, HS, HD.
  apply Z.ltb_lt in Hpos. rewrite Hpos.
  read_cases net c;
    eexists; (split; [reflexivity|reflexivity]).
Qed.

(** Without a positive timeout no deadline is set. *)
Lemma proxy_no_deadline
    (c0 : ascii) (fragment host port : string) (c : Conn) :
  Path r = String c0 fragment ->
  SplitHostPort fragment = inl (host, port) ->
  snd (world_Dial net (dialerOf p) "tcp" (proxyOf r)) = inl c ->
  Timeout p <= 0 ->
  deadlines c (trace (final (proxyHandler_ServeHTTP net p r (initial t0)))) = [].
Proof.
  intros HP HS HD Hle. revert HD. run_handler. intros HD. rewrite HP, HS, HD.
  apply Z.ltb_ge in Hle. rewrite Hle.
  read_cases net c; reflexivity.
Qed.

(** C5, as the code has it. With the keys of the reply distinct and in
    canonical form, every header of the reply that has one value and is
    neither Content-Length nor Content-Type is on the outbound map with
    that value; Content-Length is absent and Content-Type is the one of
    the JSON body. *)
Theorem proxy_headers_copied
    (c0 : ascii) (fragment host port : string) (c : Conn) (res : Response) :
  Path r = String c0 fragment ->
  SplitHostPort fragment = inl (host, port) ->
  snd (world_Dial net (dialerOf p) "tcp" (proxyOf r)) = inl c ->
  snd (world_ReadResponse net c) = inl res ->
  NoDup (Header res).*1 ->
  (forall k, k ∈ (Header res).*1 -> CanonicalMIMEHeaderKey k = k) ->
  (forall k v,
      (k, [v]) ∈ Header res ->
      k <> "Content-Length" -> k <> "Content-Type" ->
      rw_Header (w (final (proxyHandler_ServeHTTP net p r (initial t0)))) !! k
      = Some [v])
  /\ rw_Header (w (final (proxyHandler_ServeHTTP net p r (initial t0))))
       !! "Content-Length" = None
  /\ rw_Header (w (final (proxyHandler_ServeHTTP net p r (initial t0))))
       !! "Content-Type" = Some ["application/json;charset=utf-8"].
Proof.
  intros HP HS HD HR Hnd Hcan. revert HD. run_handler. intros HD.
  rewrite HP, HS, HD.
  destruct (0 <? Timeout p); rewrite HR; code_cases res;
    (split; [|split]);
    try (intros k v Hin Hcl Hct);
    rewrite lookup_Header_Set, canonical_content_type.
  all: try (rewrite decide_True by reflexivity; reflexivity).
  all: try (rewrite decide_False by discriminate;
            apply copyHeaders_no_content_length; apply lookup_empty).
  all: rewrite decide_False by congruence;
    by apply (copyHeaders_lookup _ _ k [v] v).
Qed.

End Proxy.

(** ** The proxy-tunnel probe on concrete runs *)

Lemma proxy_bad_target_witness :
  let r := viaProxy "/xyz" ["10.0.0.1:3128"] in
  let out := proxyHandler_ServeHTTP (world 0 (inl 7%nat) (inr (otherError "EOF")))
               {| Timeout := 5 * second |} r (initial 0) in
  SplitHostPort "xyz" = inr {| Err := missingPort; Addr := "xyz" |}
  /\ responded (final out) 400
       {| Status := "BAD_URL"; Error := "address xyz: missing port in address";
          Proxy := "10.0.0.1:3128" |}
  /\ trace (final out) = [].
Proof.
  intros r out. split; [reflexivity|].
  destruct (proxy_bad_target (world 0 (inl 7%nat) (inr (otherError "EOF")))
              {| Timeout := 5 * second |} r 0 "/" "xyz"
              {| Err := missingPort; Addr := "xyz" |} eq_refl eq_refl)
    as (_ & Hresp & Htrace & _).
  split; [exact Hresp|exact Htrace].
Defined.

Lemma proxy_dial_failure_witness :
  let err := netError false "dial tcp: address abc: missing port in address" in
  let net := world 0 (inr err) (inr (otherError "EOF")) in
  let r := viaProxy "/example.com:80" ["abc"] in
  let out := proxyHandler_ServeHTTP net {| Timeout := 5 * second |} r (initial 0) in
  snd (world_Dial net (dialerOf {| Timeout := 5 * second |}) "tcp" (proxyOf r))
  = inr err
  /\ responded (final out) 400
       {| Status := "PROXY_UNREACHABLE";
          Error := "dial tcp: address abc: missing port in address";
          Proxy := "abc" |}
  /\ trace (final out)
     = [EvDial {| Dialer_Timeout := 5 * second; KeepAlive := 0 |} "tcp" "abc"].
Proof.
  intros err net r out. split; [reflexivity|].
  destruct (proxy_dial_failure net {| Timeout := 5 * second |} r 0
              "/" "example.com:80" "example.com" "80" err
              eq_refl eq_refl eq_refl)
    as (_ & Hresp & Htrace & _).
  split; [exact Hresp|exact Htrace].
Defined.

Lemma proxy_read_failure_witness :
  let err := netError false "read tcp 10.0.0.1:3128: connection reset by peer" in
  let net := world 0 (inl 7%nat) (inr err) in
  let r := viaProxy "/127.0.0.1:1" ["10.0.0.1:3128"] in
  let out := proxyHandler_ServeHTTP net {| Timeout := 5 * second |} r (initial 0) in
  snd (world_ReadResponse net 7%nat) = inr err
  /\ responded (final out) 503
       {| Status := "HOST_CONNECT_FAIL";
          Error := "net error: read tcp 10.0.0.1:3128: connection reset by peer";
          Proxy := "10.0.0.1:3128" |}.
Proof.
  intros err net r out. split; [reflexivity|].
  destruct (proxy_read_failure net {| Timeout := 5 * second |} r 0
              "/" "127.0.0.1:1" "127.0.0.1" "1" 7%nat err
              eq_refl eq_refl eq_refl eq_refl)
    as (_ & Hresp & _).
  exact Hresp.
Defined.

(** The three rows of the classification, run. *)
Example read_failure_rows :
  let run := fun err =>
    rw_code (w (final (proxyHandler_ServeHTTP (world 0 (inl 7%nat) (inr err))
                         {| Timeout := 5 * second |}
                         (viaProxy "/127.0.0.1:1" ["10.0.0.1:3128"])
                         (initial 0)))) in
  run (otherError "unexpected EOF") = Some 504
  /\ run (netError false "connection reset by peer") = Some 503
  /\ run (netError true "i/o timeout") = Some 504.
Proof. repeat split. Qed.

Lemma proxy_success_witness :
  let res := {| StatusCode := 407;
                Header := [("Content-Length", ["0"]);
                           ("Proxy-Authenticate", ["Basic"])] |} in
  let net := world 0 (inl 7%nat) (inl res) in
  let r := viaProxy "/example.com:80" ["10.0.0.1:3128"] in
  let out := proxyHandler_ServeHTTP net {| Timeout := 5 * second |} r (initial 0) in
  snd (world_ReadResponse net 7%nat) = inl res
  /\ validCode (StatusCode res) = true
  /\ interimCode (StatusCode res) = false
  /\ responded (final out) 407
       {| Status := "OK"; Error := ""; Proxy := "10.0.0.1:3128" |}
  /\ rw_Header (w (final out)) !! "Content-Length" = None.
Proof.
  intros res net r out. repeat (split; [reflexivity|]).
  destruct (proxy_success net {| Timeout := 5 * second |} r 0
              "/" "example.com:80" "example.com" "80" 7%nat res
              eq_refl eq_refl eq_refl eq_refl)
    as (Hcl & Hpass).
  destruct (Hpass eq_refl eq_refl) as (_ & Hresp).
  split; [exact Hresp|]. apply Hcl. reflexivity.
Defined.

(** C3 as the claim has it fails: a response with status 100 is answered
    with status 200, after an interim response; one with status 099 makes
    the handler panic before a status or a body is written. *)
Lemma proxy_status_not_passed :
  let run := fun code =>
    proxyHandler_ServeHTTP
      (world 0 (inl 7%nat) (inl {| StatusCode := code; Header := [] |}))
      {| Timeout := 5 * second |}
      (viaProxy "/example.com:80" ["10.0.0.1:3128"]) (initial 0) in
  (returned (run 100) = true
   /\ rw_code (w (final (run 100))) = Some 200
   /\ rw_code (w (final (run 100))) <> Some 100
   /\ rw_interim (w (final (run 100))) = [100])
  /\ (returned (run 99) = false
      /\ rw_code (w (final (run 99))) = None
      /\ rw_body (w (final (run 99))) = []
      /\ run 99
         = Panicked "invalid WriteHeader code 99" (final (run 99))).
Proof. repeat split; discriminate. Qed.

Lemma proxy_conn_closed_witness :
  let net := world 0 (inl 7%nat) (inl {| StatusCode := 99; Header := [] |}) in
  let r := viaProxy "/example.com:80" ["10.0.0.1:3128"] in
  let out := proxyHandler_ServeHTTP net {| Timeout := 5 * second |} r (initial 0) in
  snd (world_Dial net (dialerOf {| Timeout := 5 * second |}) "tcp" (proxyOf r))
  = inl 7%nat
  /\ returned out = false
  /\ exists before,
       trace (final out) = (before ++ [EvClose 7%nat])%list
       /\ EvClose 7%nat ∉ before.
Proof.
  intros net r out. split; [reflexivity|]. split; [reflexivity|].
  exact (proxy_conn_closed net {| Timeout := 5 * second |} r 0
           "/" "example.com:80" "example.com" "80" 7%nat
           eq_refl eq_refl eq_refl).
Defined.

(** The connection is closed once on the ways out that return as well. *)
Example proxy_conn_closed_on_return :
  closes (trace (final (proxyHandler_ServeHTTP
                          (world 0 (inl 7%nat) (inr (netError true "i/o timeout")))
                          {| Timeout := 5 * second |}
                          (viaProxy "/example.com:80" ["10.0.0.1:3128"])
                          (initial 0))))
  = [7%nat].
Proof. reflexivity. Qed.

(** C4 as the claim has it fails: the dial takes three of the five seconds,
    and the deadline is eight seconds after the start, not five. *)
Lemma deadline_rearmed_after_dial :
  let net := world (3 * second) (inl 7%nat)
                   (inl {| StatusCode := 200; Header := [] |}) in
  let out := proxyHandler_ServeHTTP net {| Timeout := 5 * second |}
               (viaProxy "/example.com:80" ["10.0.0.1:3128"]) (initial 0) in
  deadlines 7%nat (trace (final out)) = [8 * second]
  /\ ~ sharedBudget 0 (5 * second) 7%nat (trace (final out)).
Proof. split; [reflexivity|]. intros H. discriminate H. Qed.

Lemma proxy_deadline_witness :
  let net := world (3 * second) (inl 7%nat)
                   (inl {| StatusCode := 200; Header := [] |}) in
  let p := {| Timeout := 5 * second |} in
  let r := viaProxy "/example.com:80" ["10.0.0.1:3128"] in
  0 < Timeout p
  /\ exists rest,
       trace (final (proxyHandler_ServeHTTP net p r (initial 0)))
       = EvDial {| Dialer_Timeout := 5 * second; KeepAlive := 0 |}
           "tcp" "10.0.0.1:3128"
         :: EvSetDeadline 7%nat (0 + 3 * second + 5 * second)
         :: EvWrite 7%nat ("CONNECT example.com:80 HTTP/1.1"
                           ++ String "010" (String "010" EmptyString))
         :: EvReadResponse 7%nat :: rest
       /\ deadlines 7%nat rest = [].
Proof.
  intros net p r. split; [reflexivity|].
  apply (proxy_deadline net p r 0 "/" "example.com:80" "example.com" "80" 7%nat);
    reflexivity.
Defined.

Lemma proxy_headers_copied_witness :
  let res := {| StatusCode := 200;
                Header := [("Content-Length", ["0"]); ("Server", ["squid"])] |} in
  let net := world 0 (inl 7%nat) (inl res) in
  let r := viaProxy "/example.com:80" ["10.0.0.1:3128"] in
  NoDup (Header res).*1
  /\ rw_Header (w (final (proxyHandler_ServeHTTP net {| Timeout := 5 * second |} r
                            (initial 0)))) !! "Server" = Some ["squid"].
Proof.
  intros res net r.
  assert (Hnd : NoDup (Header res).*1).
  { cbn. repeat constructor; not_among. }
  split; [exact Hnd|].
  refine (proj1 (proxy_headers_copied net {| Timeout := 5 * second |} r 0
                   "/" "example.com:80" "example.com" "80" 7%nat res
                   eq_refl eq_refl eq_refl eq_refl Hnd _)
            "Server" "squid" _ _ _).
  - intros k Hk. cbn in Hk. rewrite !elem_of_cons, elem_of_nil in Hk.
    destruct Hk as [->|[->|[]]]; reflexivity.
  - cbn. apply elem_of_cons. right. apply elem_of_cons. by left.
  - discriminate.
  - discriminate.
Defined.

(** C5 as the claim has it fails: the proxy's Content-Type, which is not
    Content-Length, is not on the outbound response; the one of the JSON
    body is. *)
Lemma content_type_not_copied :
  let res := {| StatusCode := 200;
                Header := [("Content-Type", ["text/html"]); ("Server", ["squid"])] |} in
  let net := world 0 (inl 7%nat) (inl res) in
  let r := viaProxy "/example.com:80" ["10.0.0.1:3128"] in
  let outbound :=
    rw_Header (w (final (proxyHandler_ServeHTTP net {| Timeout := 5 * second |} r
                           (initial 0)))) in
  ("Content-Type", ["text/html"]) ∈ Header res
  /\ "Content-Type" <> "Content-Length"
  /\ outbound !! "Content-Type" = Some ["application/json;charset=utf-8"]
  /\ outbound !! "Content-Type" <> Some ["text/html"].
Proof.
  cbn zeta. split; [apply elem_of_cons; by left|].
  split; [discriminate|].
  assert (H : rw_Header (w (final (proxyHandler_ServeHTTP
                 (world 0 (inl 7%nat)
                    (inl {| StatusCode := 200;
                            Header := [("Content-Type", ["text/html"]);
                                       ("Server", ["squid"])] |}))
                 {| Timeout := 5 * second |}
                 (viaProxy "/example.com:80" ["10.0.0.1:3128"]) (initial 0))))
              !! "Content-Type" = Some ["application/json;charset=utf-8"]).
  { vm_compute. reflexivity. }
  split; [exact H|]. rewrite H. discriminate.
Qed.

(** A header with two values arrives with the second only. *)
Example only_last_value_copied :
  let res := {| StatusCode := 200;
                Header := [("Set-Cookie", ["a=1"; "b=2"])] |} in
  let net := world 0 (inl 7%nat) (inl res) in
  let r := viaProxy "/example.com:80" ["10.0.0.1:3128"] in
  rw_Header (w (final (proxyHandler_ServeHTTP net {| Timeout := 5 * second |} r
                         (initial 0)))) !! "Set-Cookie" = Some ["b=2"].
Proof. vm_compute. reflexivity. Qed.

(** ** What a result looks like in JSON *)

Lemma hasMember_error (v : result) :
  hasMember "error" (Marshal v) <-> Error v <> "".
Proof.
  unfold hasMember, Marshal.
  destruct (String.eqb_spec (Error v) ""), (String.eqb_spec (Proxy v) "");
    cbn [app fmap list_fmap fst]; rewrite ?elem_of_cons, elem_of_nil;
    split; intros H; try congruence;
    repeat (destruct H as [H|H]; try discriminate H); tauto.
Qed.

Lemma hasMember_proxy (v : result) :
  hasMember "proxy" (Marshal v) <-> Proxy v <> "".
Proof.
  unfold hasMember, Marshal.
  destruct (String.eqb_spec (Error v) ""), (String.eqb_spec (Proxy v) "");
    cbn [app fmap list_fmap fst]; rewrite ?elem_of_cons, elem_of_nil;
    split; intros H; try congruence;
    repeat (destruct H as [H|H]; try discriminate H); tauto.
Qed.

Lemma splitHost_error_reason (hostport : string) (i : nat) (e : AddrError) :
  splitHost hostport i = inr e -> Err e <> "".
Proof.
  unfold splitHost, addrErr. split_cases;
    intros H; inversion H; subst; cbn [Err]; discriminate.
Qed.

(** Every error of [SplitHostPort] names its reason. *)
Lemma SplitHostPort_error_reason (hostport : string) (e : AddrError) :
  SplitHostPort hostport = inr e -> Err e <> "".
Proof.
  unfold SplitHostPort, addrErr.
  destruct (Bytes.LastIndexByteString hostport ":") as [i|];
    [|intros H; inversion H; discriminate].
  destruct (splitHost hostport i) as [[[host j] k]|e'] eqn:Hs.
  - split_cases; intros H; inversion H; subst; cbn [Err]; discriminate.
  - intros H; inversion H; subst. eapply splitHost_error_reason, Hs.
Qed.

Lemma SplitHostPort_error_text (hostport : string) (e : AddrError) :
  SplitHostPort hostport = inr e -> AddrError_Error e <> "".
Proof.
  intros H. apply SplitHostPort_error_reason in H.
  unfold AddrError_Error. destruct (String.eqb (Addr e) ""); [exact H|discriminate].
Qed.

(** ** The results of the two probes *)

Section Results.

Variable net : World.
Hypothesis Htext : errorsHaveText net.

Lemma proxy_result (p : proxyHandler) (r : Request) (t0 : Time) (s : State) :
  proxyHandler_ServeHTTP net p r (initial t0) = Returned tt s ->
  exists code v,
    responded s code v
    /\ Proxy v = Values_Get (Query r) "proxy"
    /\ (Error v <> "" <-> Status v <> "OK").
Proof.
  destruct Htext as [Hdial Hread].
  run_handler.
  destruct (Path r) as [|c0 fragment]; [discriminate|].
  destruct (SplitHostPort fragment) as [[host port]|e] eqn:HS.
  - match goal with
    | |- context [world_Dial net ?d ?n ?a] =>
        destruct (snd (world_Dial net d n a)) as [c|err] eqn:HD
    end.
    + destruct (0 <? Timeout p);
        (destruct (snd (world_ReadResponse net c)) as [res|err] eqn:HR;
         [code_cases res|destruct (err_netTimeout err) as [[]|]]);
        intros H; try discriminate H; inversion H; subst; clear H;
        eexists _, _; (split; [split; reflexivity|]);
        (split; [reflexivity|]); cbn [Error Status];
        (split; intros H;
         first [discriminate | congruence | apply (Hread _ _ HR)]).
    + intros H; inversion H; subst; clear H.
      eexists _, _; (split; [split; reflexivity|]).
      split; [reflexivity|]. cbn [Error Status].
      split; intros _; [discriminate|]. apply (Hdial _ _ _ _ HD).
  - intros H; inversion H; subst; clear H.
    eexists _, _; (split; [split; reflexivity|]).
    split; [reflexivity|]. cbn [Error Status].
    split; intros _; [discriminate|]. apply (SplitHostPort_error_text _ _ HS).
Qed.

Lemma plain_result (checker : plainTest) (r : Request) (t0 : Time) (s : State) :
  plain net checker r (initial t0) = Returned tt s ->
  exists code v,
    responded s code v
    /\ Proxy v = ""
    /\ (Error v <> "" <-> Status v <> "OK").
Proof.
  destruct Htext as [Hdial Hread].
  run_handler.
  destruct (Path r) as [|c0 fragment]; [discriminate|].
  destruct (SplitHostPort fragment) as [[host port]|e] eqn:HS.
  - match goal with
    | |- context [world_Dial net ?d ?n ?a] =>
        destruct (snd (world_Dial net d n a)) as [c|err] eqn:HD
    end;
      intros H; inversion H; subst; clear H;
      eexists _, _; (split; [split; reflexivity|]);
      (split; [reflexivity|]); cbn [Error Status].
    + split; intros H; congruence.
    + split; intros _; [discriminate|]. apply (Hdial _ _ _ _ HD).
  - intros H; inversion H; subst; clear H.
    eexists _, _; (split; [split; reflexivity|]).
    split; [reflexivity|]. cbn [Error Status].
    split; intros _; [discriminate|]. apply (SplitHostPort_error_text _ _ HS).
Qed.

End Results.

(** What [Run] leaves in the response writer is what the handler it picked
    left there. *)
Lemma Run_returned
    (net : World) (timeout : Duration) (r : Request) (s0 s : State) :
  Run net timeout r s0 = Returned tt s ->
  exists s',
    (if negb (String.eqb (Values_Get (Query r) "proxy") "")
     then proxyHandler_ServeHTTP net {| Timeout := timeout |} r s0
     else plain net (checkerOf timeout) r s0)
    = Returned tt s'
    /\ w s' = w s.
Proof.
  cbv [Run logRequest checkerOf proxyOf mbind M_bind time_Now defer].
  destruct (negb (String.eqb (Values_Get (Query r) "proxy") ""));
    match goal with
    | |- context [match ?h s0 with _ => _ end] =>
        destruct (h s0) as [[] s'|msg s'] eqn:Hh
    end;
    cbv [Path_1 emit mret M_ret panic]; destruct (Path r);
    try discriminate;
    intros H; inversion H; subst; exists s'; (split; reflexivity).
Qed.

(** C9. With errors that carry a text, every result [Run] answers with has
    an error member exactly when its status is not OK, and a proxy member
    exactly when the request named a proxy, that is when the proxy probe
    ran; the member is then that proxy address. *)
Theorem result_members
    (net : World) (timeout : Duration) (r : Request) (t0 : Time) (s : State) :
  errorsHaveText net ->
  Run net timeout r (initial t0) = Returned tt s ->
  exists code v,
    responded s code v
    /\ (hasMember "error" (Marshal v) <-> Status v <> "OK")
    /\ (hasMember "proxy" (Marshal v) <-> Values_Get (Query r) "proxy" <> "")
    /\ Proxy v = Values_Get (Query r) "proxy".
Proof.
  intros Htext HRun.
  destruct (Run_returned net timeout r _ _ HRun) as (s' & Hh & Hw).
  unfold responded. rewrite <- Hw.
  destruct (String.eqb_spec (Values_Get (Query r) "proxy") "") as [Heq|Hne];
    cbn [negb] in Hh.
  - destruct (plain_result net Htext _ _ _ _ Hh) as (code & v & Hresp & Hp & He).
    exists code, v. rewrite hasMember_error, hasMember_proxy, Hp, Heq.
    repeat split; try apply Hresp; try apply He; congruence.
  - destruct (proxy_result net Htext _ _ _ _ Hh) as (code & v & Hresp & Hp & He).
    exists code, v. rewrite hasMember_error, hasMember_proxy, Hp.
    repeat split; try apply Hresp; try apply He; congruence.
Qed.

Lemma result_members_witness :
  let net := world 0 (inr (netError false "dial tcp 127.0.0.1:1: connect: connection refused"))
                   (inr (otherError "unexpected EOF")) in
  let r := direct "/127.0.0.1:1" in
  errorsHaveText net
  /\ exists code v,
       responded (final (Run net (5 * second) r (initial 0))) code v
       /\ (hasMember "error" (Marshal v) <-> Status v <> "OK")
       /\ (hasMember "proxy" (Marshal v) <-> Values_Get (Query r) "proxy" <> "")
       /\ Proxy v = Values_Get (Query r) "proxy".
Proof.
  intros net r.
  assert (Htext : errorsHaveText net).
  { split; intros *; cbn; intros H; inversion H; discriminate. }
  split; [exact Htext|].
  apply (result_members net (5 * second) r 0 _ Htext). reflexivity.
Defined.

(** Two scenarios of the test suite on the direct path. *)
Example scenario_direct_refused :
  let net := world 0 (inr (netError false "connection refused"))
                   (inr (otherError "unexpected EOF")) in
  responded (final (Run net (5 * second) (direct "/127.0.0.1:1") (initial 0)))
    502 {| Status := "HOST_CONNECT_FAIL"; Error := "connection refused"; Proxy := "" |}.
Proof. split; reflexivity. Qed.

Example scenario_invalid_host :
  let net := world 0 (inl 7%nat) (inr (otherError "unexpected EOF")) in
  responded (final (Run net (5 * second) (direct "/xyz") (initial 0)))
    400 {| Status := "INVALID_HOST";
           Error := "address xyz: missing port in address"; Proxy := "" |}.
Proof. split; reflexivity. Qed.

(** ** The dispatcher *)

(** A request with an empty path makes the handler panic before it answers:
    the slice [r.URL.Path[1:]] is out of range. *)
Example empty_path_panics :
  let net := world 0 (inl 7%nat) (inr (otherError "unexpected EOF")) in
  let out := Run net (5 * second) (direct "") (initial 0) in
  returned out = false /\ rw_body (w (final out)) = [] /\ trace (final out) = [].
Proof. repeat split. Qed.

(** C10. A request whose first proxy value is empty is served as the
    request without the parameter is: by the direct probe, whose statuses
    are OK, INVALID_HOST and HOST_CONNECT_FAIL, none of them one of the
    proxy path. *)
Theorem empty_proxy_is_direct
    (net : World) (timeout : Duration) (r : Request) (more : list string) :
  Query r !! "proxy" = Some ("" :: more) ->
  (forall s0,
      Run net timeout r s0
      = Run net timeout {| Path := Path r; Query := delete "proxy" (Query r) |} s0)
  /\ (forall s0,
         Run net timeout r s0
         = defer (logRequest r (now s0)) (plain net (checkerOf timeout) r) s0)
  /\ (forall t0 obj,
         obj ∈ rw_body (w (final (Run net timeout r (initial t0)))) ->
         exists v,
           obj = Marshal v
           /\ Status v ∈ ["OK"; "INVALID_HOST"; "HOST_CONNECT_FAIL"]
           /\ Status v ∉ ["BAD_URL"; "PROXY_UNREACHABLE"; "PROXY_CONNECT_ERROR"]).
Proof.
  intros Hq.
  assert (Hget : Values_Get (Query r) "proxy" = "").
  { unfold Values_Get. by rewrite Hq. }
  assert (Hget' : Values_Get (delete "proxy" (Query r)) "proxy" = "").
  { unfold Values_Get. by rewrite lookup_delete_eq. }
  split; [|split].
  - intros s0. cbv [Run logRequest proxyOf]. cbn [Query].
    rewrite Hget, Hget'. reflexivity.
  - intros s0. cbv [Run]. unfold proxyOf at 1. rewrite Hget. reflexivity.
  - intros t0 obj. run_handler. rewrite Hget. cbn [negb String.eqb].
    destruct (Path r) as [|c0 fragment].
    { cbn. intros H. by apply elem_of_nil in H. }
    destruct (SplitHostPort fragment) as [[host port]|e].
    + match goal with
      | |- context [world_Dial net ?d ?n ?a] =>
          destruct (snd (world_Dial net d n a)) as [c|err]
      end;
        cbn [app]; intros H; apply list_elem_of_singleton in H; subst obj;
        eexists; (split; [reflexivity|]); cbn [Status];
        (split; [rewrite !elem_of_cons; tauto|not_among]).
    + cbn [app]; intros H; apply list_elem_of_singleton in H; subst obj;
        eexists; (split; [reflexivity|]); cbn [Status];
        (split; [rewrite !elem_of_cons; tauto|not_among]).
Qed.

Lemma empty_proxy_is_direct_witness :
  let net := world 0 (inl 7%nat) (inl {| StatusCode := 200; Header := [] |}) in
  let r := viaProxy "/example.com:80" [""] in
  Query r !! "proxy" = Some ("" :: [])
  /\ Run net (5 * second) r (initial 0)
     = Run net (5 * second) (direct "/example.com:80") (initial 0).
Proof.
  intros net r. split; [reflexivity|].
  destruct (empty_proxy_is_direct net (5 * second) r [] eq_refl) as [Heq _].
  rewrite (Heq (initial 0)). reflexivity.
Defined.

(** ** The target parser *)

Lemma IndexByteString_None (s : string) (c : ascii) :
  Bytes.IndexByteString s c = None <-> Bytes.occurs c s = false.
Proof.
  induction s as [|a s IH]; simpl; [tauto|].
  destruct (Ascii.eqb a c); simpl; [split; discriminate|].
  destruct (Bytes.IndexByteString s c); rewrite <- IH; split; congruence.
Qed.

Lemma LastIndexByteString_None (s : string) (c : ascii) :
  Bytes.LastIndexByteString s c = None <-> Bytes.occurs c s = false.
Proof.
  induction s as [|a s IH]; simpl; [tauto|].
  destruct (Bytes.LastIndexByteString s c).
  - split; [discriminate|]. intros H. apply orb_false_elim in H as [_ H].
    apply IH in H. discriminate.
  - destruct (Ascii.eqb a c); simpl; [split; discriminate|]. tauto.
Qed.

(** The last colon of [host:port] is the one in the middle when [port]
    has none. *)
Lemma LastIndexByteString_join (host port : string) :
  Bytes.occurs ":" port = false ->
  Bytes.LastIndexByteString (host ++ ":" ++ port) ":" = Some (String.length host).
Proof.
  intros Hp. change (":" ++ port) with (String ":" port).
  induction host as [|a host IH]; simpl.
  - apply LastIndexByteString_None in Hp. by rewrite Hp.
  - by rewrite IH.
Qed.

Lemma upto_app (s t : string) : Bytes.upto (String.length s) (s ++ t) = s.
Proof. induction s as [|a s IH]; simpl; [by destruct t|]. by rewrite IH. Qed.

Lemma from_join (host port : string) :
  Bytes.from (String.length host + 1) (host ++ ":" ++ port) = port.
Proof.
  change (":" ++ port) with (String ":" port).
  induction host as [|a host IH]; simpl; [reflexivity|exact IH].
Qed.

Lemma at_0_occurs (s : string) (c : ascii) :
  Bytes.at_ s 0 = Some c -> Bytes.occurs c s = true.
Proof.
  destruct s as [|a s]; simpl; [discriminate|].
  intros H; inversion H; subst. by rewrite Ascii.eqb_refl.
Qed.

(** A fragment without a colon has no port. *)
Lemma SplitHostPort_no_colon (fragment : string) :
  Bytes.occurs ":" fragment = false ->
  SplitHostPort fragment = inr {| Err := missingPort; Addr := fragment |}.
Proof.
  intros H. apply LastIndexByteString_None in H.
  unfold SplitHostPort. by rewrite H.
Qed.

(** Without square brackets the text before the last colon decides. *)
Lemma SplitHostPort_join (host port : string) :
  Bytes.occurs ":" port = false ->
  Bytes.occurs "[" (host ++ ":" ++ port) = false ->
  Bytes.occurs "]" (host ++ ":" ++ port) = false ->
  SplitHostPort (host ++ ":" ++ port) =
  if Bytes.occurs ":" host
  then inr {| Err := tooManyColons; Addr := host ++ ":" ++ port |}
  else inl (host, port).
Proof.
  intros Hp Hl Hr. unfold SplitHostPort, splitHost.
  rewrite (LastIndexByteString_join host port Hp).
  destruct (Bytes.at_ (host ++ ":" ++ port) 0) as [c|] eqn:H0.
  - destruct (Ascii.eqb_spec c "[") as [->|_].
    { apply at_0_occurs in H0. congruence. }
    rewrite upto_app.
    destruct (Bytes.occurs ":" host) eqn:Hh.
    + destruct (Bytes.IndexByteString host ":") eqn:Hi; [reflexivity|].
      apply IndexByteString_None in Hi. congruence.
    + apply IndexByteString_None in Hh. rewrite Hh. cbn [Bytes.from].
      apply IndexByteString_None in Hl, Hr. rewrite Hl, Hr.
      by rewrite from_join.
  - destruct host; discriminate H0.
Qed.

(** C2 as the claim has it fails: an empty host and an empty port parse,
    and the direct probe then dials; a host with a colon of its own does
    not parse although host and port are not empty. *)
Lemma target_parser_not_as_specified :
  (spec_parse_target ":80" = None /\ SplitHostPort ":80" = inl ("", "80"))
  /\ (spec_parse_target "example.com:" = None
      /\ SplitHostPort "example.com:" = inl ("example.com", ""))
  /\ (spec_parse_target "a:b:80" = Some ("a:b", "80")
      /\ SplitHostPort "a:b:80" = inr {| Err := tooManyColons; Addr := "a:b:80" |})
  /\ trace (final (plain (world 0 (inl 7%nat) (inr (otherError "unexpected EOF")))
                     (checkerOf (5 * second)) (direct "/:80") (initial 0)))
     = [EvDial {| Dialer_Timeout := 5 * second; KeepAlive := 0 |} "tcp" ":80";
        EvClose 7%nat].
Proof. repeat split. Qed.

(** C2, as the code has it. For [host:port] without square brackets and
    with no colon in [port]: the parser gives back [host] and [port] when
    [host] has no colon, be they empty or not, and fails when it has one.
    A fragment without a colon fails. A failure is answered with 400 and
    INVALID_HOST on the direct path, BAD_URL on the proxy path, and
    nothing happens on the network. *)
Theorem target_parser (host port : string) :
  Bytes.occurs ":" port = false ->
  Bytes.occurs "[" (host ++ ":" ++ port) = false ->
  Bytes.occurs "]" (host ++ ":" ++ port) = false ->
  (Bytes.occurs ":" host = false ->
   SplitHostPort (host ++ ":" ++ port) = inl (host, port))
  /\ (Bytes.occurs ":" host = true ->
      SplitHostPort (host ++ ":" ++ port)
      = inr {| Err := tooManyColons; Addr := host ++ ":" ++ port |})
  /\ (forall fragment,
         Bytes.occurs ":" fragment = false ->
         SplitHostPort fragment = inr {| Err := missingPort; Addr := fragment |})
  /\ (forall net checker p r t0 c0 fragment e,
         Path r = String c0 fragment ->
         SplitHostPort fragment = inr e ->
         let viaPlain := final (plain net checker r (initial t0)) in
         let viaTunnel := final (proxyHandler_ServeHTTP net p r (initial t0)) in
         responded viaPlain 400
           {| Status := "INVALID_HOST"; Error := AddrError_Error e; Proxy := "" |}
         /\ trace viaPlain = []
         /\ responded viaTunnel 400
              {| Status := "BAD_URL"; Error := AddrError_Error e;
                 Proxy := Values_Get (Query r) "proxy" |}
         /\ trace viaTunnel = []).
Proof.
  intros Hp Hl Hr. pose proof (SplitHostPort_join host port Hp Hl Hr) as Hj.
  split; [|split; [|split]].
  - intros Hh. by rewrite Hh in Hj.
  - intros Hh. by rewrite Hh in Hj.
  - apply SplitHostPort_no_colon.
  - intros net checker p r t0 c0 fragment e HP HS. run_handler.
    rewrite HP, HS. repeat split.
Qed.

Lemma target_parser_witness :
  Bytes.occurs ":" "80" = false
  /\ Bytes.occurs "[" ("" ++ ":" ++ "80") = false
  /\ Bytes.occurs "]" ("" ++ ":" ++ "80") = false
  /\ SplitHostPort ("" ++ ":" ++ "80") = inl ("", "80").
Proof.
  repeat (split; [reflexivity|]).
  exact (proj1 (target_parser "" "80" eq_refl eq_refl eq_refl) eq_refl).
Defined.

(* ===================================================================== *)
(** * Further properties *)
(* ===================================================================== *)

(** ** Parsing and joining addresses *)

Lemma occurs_app (c : ascii) (s t : string) :
  Bytes.occurs c (s ++ t) = Bytes.occurs c s || Bytes.occurs c t.
Proof.
  induction s as [|a s IH]; simpl; [reflexivity|].
  rewrite IH. apply orb_assoc.
Qed.

Lemma occurs_from (c : ascii) (n : nat) (s : string) :
  Bytes.occurs c s = false -> Bytes.occurs c (Bytes.from n s) = false.
Proof.
  revert s. induction n as [|n IH]; intros s H; [exact H|].
  destruct s as [|a s]; [reflexivity|]. simpl in *.
  apply orb_false_elim in H as [_ H]. by apply IH.
Qed.

Lemma occurs_upto (c : ascii) (n : nat) (s : string) :
  Bytes.occurs c s = false -> Bytes.occurs c (Bytes.upto n s) = false.
Proof.
  revert s. induction n as [|n IH]; intros s H; [reflexivity|].
  destruct s as [|a s]; [reflexivity|]. simpl in *.
  apply orb_false_elim in H as [Ha H]. by rewrite Ha, IH.
Qed.

Lemma from_from (n m : nat) (s : string) :
  Bytes.from n (Bytes.from m s) = Bytes.from (m + n) s.
Proof.
  revert s. induction m as [|m IH]; intros s; [reflexivity|].
  destruct s as [|a s]; simpl; [by destruct n|apply IH].
Qed.

(** Before its first occurrence a byte does not occur. *)
Lemma IndexByteString_upto (s : string) (c : ascii) (n : nat) :
  Bytes.IndexByteString s c = Some n -> Bytes.occurs c (Bytes.upto n s) = false.
Proof.
  revert n. induction s as [|a s IH]; intros n; simpl; [discriminate|].
  destruct (Ascii.eqb a c) eqn:Ha.
  - intros H; inversion H; reflexivity.
  - destruct (Bytes.IndexByteString s c) as [m|]; [|discriminate].
    intros H; inversion H; subst. simpl. rewrite Ha. by apply IH.
Qed.

(** After its last occurrence a byte does not occur. *)
Lemma LastIndexByteString_from (s : string) (c : ascii) (i : nat) :
  Bytes.LastIndexByteString s c = Some i ->
  Bytes.occurs c (Bytes.from (i + 1) s) = false.
Proof.
  revert i. induction s as [|a s IH]; intros i; simpl; [discriminate|].
  destruct (Bytes.LastIndexByteString s c) as [m|] eqn:Hm.
  - intros H; inversion H; subst. simpl. by apply IH.
  - destruct (Ascii.eqb a c); [|discriminate].
    intros H; inversion H; subst. simpl. by apply LastIndexByteString_None.
Qed.

(** A string is what is before its last colon, the colon, and what is
    after it. *)
Lemma LastIndexByteString_split (s : string) (c : ascii) (i : nat) :
  Bytes.LastIndexByteString s c = Some i ->
  s = Bytes.upto i s ++ String c (Bytes.from (i + 1) s).
Proof.
  revert i. induction s as [|a s IH]; intros i; simpl; [discriminate|].
  destruct (Bytes.LastIndexByteString s c) as [m|] eqn:Hm.
  - intros H; inversion H; subst.
    change (String a s
            = String a (Bytes.upto m s ++ String c (Bytes.from (m + 1) s))).
    f_equal. by apply IH.
  - destruct (Ascii.eqb_spec a c) as [->|]; [|discriminate].
    intros H; inversion H; subst. reflexivity.
Qed.

Lemma IndexByteString_app (host rest : string) (c : ascii) :
  Bytes.occurs c host = false ->
  Bytes.IndexByteString (host ++ String c rest) c = Some (String.length host).
Proof.
  intros H. induction host as [|a host IH]; simpl in *.
  - by rewrite Ascii.eqb_refl.
  - apply orb_false_elim in H as [Ha H]. by rewrite Ha, IH.
Qed.

Lemma LastIndexByteString_app (pre rest : string) (c : ascii) :
  Bytes.occurs c rest = false ->
  Bytes.LastIndexByteString (pre ++ String c rest) c = Some (String.length pre).
Proof.
  intros H. induction pre as [|a pre IH]; simpl.
  - apply LastIndexByteString_None in H. by rewrite H, Ascii.eqb_refl.
  - by rewrite IH.
Qed.

Lemma from_S (a : ascii) (s : string) (n : nat) :
  Bytes.from (S n) (String a s) = Bytes.from n s.
Proof. reflexivity. Qed.

Lemma from_app (s t : string) : Bytes.from (String.length s) (s ++ t) = t.
Proof. induction s as [|a s IH]; simpl; [reflexivity|exact IH]. Qed.

Lemma length_app (s t : string) :
  String.length (s ++ t) = (String.length s + String.length t)%nat.
Proof. induction s as [|a s IH]; simpl; [reflexivity|]. by rewrite IH. Qed.

(** A bracketed host, as an IPv6 literal is written, parses to the host
    without the brackets. *)
Lemma SplitHostPort_bracketed (host port : string) :
  Bytes.occurs "[" host = false ->
  Bytes.occurs "]" host = false ->
  Bytes.occurs ":" port = false ->
  Bytes.occurs "[" port = false ->
  Bytes.occurs "]" port = false ->
  SplitHostPort ("[" ++ host ++ "]:" ++ port) = inl (host, port).
Proof.
  intros Hhl Hhr Hpc Hpl Hpr.
  change ("[" ++ host ++ "]:" ++ port)
    with (String "[" (host ++ String "]" (String ":" port))).
  unfold SplitHostPort.
  assert (Hi : Bytes.LastIndexByteString
                 (String "[" (host ++ String "]" (String ":" port))) ":"
               = Some (String.length host + 2)%nat).
  { rewrite <- (append_snoc host "]" (String ":" port)).
    cbn [Bytes.LastIndexByteString].
    rewrite (LastIndexByteString_app (host ++ String "]" "") port ":" Hpc).
    rewrite length_app. simpl. f_equal. lia. }
  rewrite Hi. unfold splitHost. cbn [Bytes.at_ String.get Ascii.eqb].
  cbn [Bool.eqb].
  assert (He : Bytes.IndexByteString
                 (String "[" (host ++ String "]" (String ":" port))) "]"
               = Some (S (String.length host))).
  { cbn [Bytes.IndexByteString Ascii.eqb Bool.eqb].
    by rewrite (IndexByteString_app host (String ":" port) "]" Hhr). }
  rewrite He.
  replace (Nat.eqb (S (String.length host) + 1)
             (String.length (String "[" (host ++ String "]" (String ":" port)))))
    with false
    by (symmetry; apply Nat.eqb_neq; cbn [String.length];
        rewrite length_app; simpl; lia).
  replace (Nat.eqb (S (String.length host) + 1) (String.length host + 2))
    with true by (symmetry; apply Nat.eqb_eq; lia).
  unfold Bytes.slice.
  replace (S (String.length host) - 1)%nat with (String.length host) by lia.
  rewrite from_S. cbn [Bytes.from]. rewrite upto_app.
  assert (Hl : Bytes.IndexByteString (host ++ String "]" (String ":" port)) "["
               = None).
  { apply IndexByteString_None. rewrite occurs_app, Hhl. simpl. exact Hpl. }
  rewrite Hl.
  replace (S (String.length host) + 1)%nat with (S (S (String.length host)))
    by lia.
  replace (String.length host + 2 + 1)%nat with (S (S (S (String.length host))))
    by lia.
  rewrite !from_S.
  assert (H1 : Bytes.from (S (String.length host))
                 (host ++ String "]" (String ":" port)) = String ":" port).
  { rewrite <- (append_snoc host "]" (String ":" port)).
    replace (S (String.length host))
      with (String.length (host ++ String "]" ""))
      by (rewrite length_app; simpl; lia).
    apply from_app. }
  assert (H2 : Bytes.from (S (S (String.length host)))
                 (host ++ String "]" (String ":" port)) = port).
  { rewrite <- (append_snoc host "]" (String ":" port)).
    rewrite <- (append_snoc (host ++ String "]" "") ":" port).
    replace (S (S (String.length host)))
      with (String.length ((host ++ String "]" "") ++ String ":" ""))
      by (rewrite !length_app; simpl; lia).
    apply from_app. }
  rewrite H1, H2.
  assert (Hr : Bytes.IndexByteString (String ":" port) "]" = None).
  { apply IndexByteString_None. simpl. exact Hpr. }
  by rewrite Hr.
Qed.

Lemma IndexByteString_split (s : string) (c : ascii) (n : nat) :
  Bytes.IndexByteString s c = Some n ->
  s = Bytes.upto n s ++ String c (Bytes.from (n + 1) s).
Proof.
  revert n. induction s as [|a s IH]; intros n; simpl; [discriminate|].
  destruct (Ascii.eqb_spec a c) as [->|Hne].
  - intros H; inversion H; reflexivity.
  - destruct (Bytes.IndexByteString s c) as [m|]; [|discriminate].
    intros H; inversion H; subst.
    change (String a s
            = String a (Bytes.upto m s ++ String c (Bytes.from (m + 1) s))).
    f_equal. by apply IH.
Qed.

Lemma LastIndexByteString_at (s : string) (c : ascii) (i : nat) :
  Bytes.LastIndexByteString s c = Some i ->
  Bytes.from i s = String c (Bytes.from (i + 1) s).
Proof.
  revert i. induction s as [|a s IH]; intros i; simpl; [discriminate|].
  destruct (Bytes.LastIndexByteString s c) as [m|] eqn:Hm.
  - intros H; inversion H; subst. simpl. by apply IH.
  - destruct (Ascii.eqb_spec a c) as [->|]; [|discriminate].
    intros H; inversion H; subst. reflexivity.
Qed.

(** What a successful parse says about the fragment and its parts. *)
Lemma SplitHostPort_inl (s h p : string) :
  SplitHostPort s = inl (h, p) ->
  Bytes.occurs ":" p = false
  /\ Bytes.occurs "[" h = false /\ Bytes.occurs "]" h = false
  /\ Bytes.occurs "[" p = false /\ Bytes.occurs "]" p = false
  /\ ((Bytes.occurs ":" h = false /\ Bytes.occurs "[" s = false
       /\ s = h ++ ":" ++ p)
      \/ s = "[" ++ h ++ "]:" ++ p).
Proof.
  unfold SplitHostPort.
  destruct (Bytes.LastIndexByteString s ":") as [i|] eqn:Hi; [|discriminate].
  pose proof (LastIndexByteString_from s ":" i Hi) as Hpc.
  unfold splitHost.
  destruct (Bytes.at_ s 0) as [c0|] eqn:H0;
    [destruct (Ascii.eqb_spec c0 "[") as [->|Hc0]|].
  - (* a bracketed host *)
    destruct s as [|a s']; [discriminate|]. simpl in H0. inversion H0; subst a.
    cbn [Bytes.IndexByteString Ascii.eqb Bool.eqb].
    destruct (Bytes.IndexByteString s' "]") as [e|] eqn:He; [|discriminate].
    destruct (Nat.eqb (S e + 1) (String.length (String "[" s'))); [discriminate|].
    destruct (Nat.eqb_spec (S e + 1) i) as [Hei|_].
    2:{ destruct (Bytes.at_ (String "[" s') (S e + 1)) as [c|];
          [destruct (Ascii.eqb c ":")|]; discriminate. }
    unfold Bytes.slice. replace (S e - 1)%nat with e by lia.
    rewrite !from_S. cbn [Bytes.from].
    destruct (Bytes.IndexByteString s' "[") eqn:Hl; [discriminate|].
    replace (S e + 1)%nat with (S (S e)) by lia. rewrite from_S.
    destruct (Bytes.IndexByteString (Bytes.from (S e) s') "]") eqn:Hr;
      [discriminate|].
    intros H; inversion H; subst h p. clear H.
    apply IndexByteString_None in Hl, Hr.
    subst i.
    replace (S e + 1 + 1)%nat with (S (S (S e))) in * by lia.
    replace (S e + 1)%nat with (S (S e)) in Hi by lia.
    rewrite from_S in Hpc. rewrite !from_S.
    pose proof (LastIndexByteString_at _ _ _ Hi) as Hat.
    replace (S (S e) + 1)%nat with (S (S (S e))) in Hat by lia.
    rewrite !from_S in Hat.
    repeat split.
    + exact Hpc.
    + by apply occurs_upto.
    + by apply IndexByteString_upto.
    + replace (S (S e)) with (0 + S (S e))%nat by lia.
      rewrite <- from_from. by apply occurs_from.
    + replace (S (S e)) with (S e + 1)%nat by lia.
      rewrite <- from_from. by apply occurs_from.
    + right.
      change ("[" ++ Bytes.upto e s' ++ "]:" ++ Bytes.from (S (S e)) s')
        with (String "[" (Bytes.upto e s'
                          ++ String "]" (String ":" (Bytes.from (S (S e)) s')))).
      f_equal. rewrite <- Hat.
      replace (S e) with (e + 1)%nat by lia.
      by apply IndexByteString_split.
  - (* no bracket in front *)
    destruct (Bytes.IndexByteString (Bytes.upto i s) ":") eqn:Hh; [discriminate|].
    cbn [Bytes.from].
    destruct (Bytes.IndexByteString s "[") eqn:Hl; [discriminate|].
    destruct (Bytes.IndexByteString s "]") eqn:Hr; [discriminate|].
    intros H; inversion H; subst h p. clear H.
    apply IndexByteString_None in Hh, Hl, Hr.
    repeat split; try (by apply occurs_upto); try (by apply occurs_from);
      try assumption.
    left. repeat split; try assumption.
    by apply LastIndexByteString_split.
  - destruct s; [discriminate Hi|discriminate H0].
Qed.

(** X1. Whatever parses can be joined and parsed again to the same host
    and port: the address the direct probe dials stands for the target of
    the request. *)
Theorem Split_Join_Split (fragment host port : string) :
  SplitHostPort fragment = inl (host, port) ->
  SplitHostPort (JoinHostPort host port) = inl (host, port).
Proof.
  intros H. apply SplitHostPort_inl in H as (Hpc & Hhl & Hhr & Hpl & Hpr & _).
  unfold JoinHostPort.
  destruct (Bytes.IndexByteString host ":") eqn:Hc.
  - by apply SplitHostPort_bracketed.
  - apply IndexByteString_None in Hc.
    rewrite SplitHostPort_join, Hc; try reflexivity; try assumption.
    + rewrite occurs_app, Hhl. simpl. exact Hpl.
    + rewrite occurs_app, Hhr. simpl. exact Hpr.
Qed.

Lemma Split_Join_Split_witness :
  SplitHostPort "[::1]:80" = inl ("::1", "80")
  /\ JoinHostPort "::1" "80" = "[::1]:80"
  /\ SplitHostPort (JoinHostPort "::1" "80") = inl ("::1", "80").
Proof.
  split; [reflexivity|]. split; [reflexivity|].
  exact (Split_Join_Split "[::1]:80" "::1" "80" eq_refl).
Defined.

(** Joining gives the fragment back, unless the fragment has brackets
    around a host without a colon. *)
Lemma Join_Split (fragment host port : string) :
  SplitHostPort fragment = inl (host, port) ->
  Bytes.occurs "[" fragment = false \/ Bytes.occurs ":" host = true ->
  JoinHostPort host port = fragment.
Proof.
  intros H Hor. apply SplitHostPort_inl in H as (_ & _ & _ & _ & _ & Hs).
  unfold JoinHostPort.
  destruct Hs as [(Hc & Hl & ->)| ->].
  - apply IndexByteString_None in Hc. by rewrite Hc.
  - destruct Hor as [Hb|Hc]; [discriminate Hb|].
    destruct (Bytes.IndexByteString host ":") eqn:Hi; [reflexivity|].
    apply IndexByteString_None in Hi. congruence.
Qed.

(** ** The direct probe *)

Section Direct.

Variable net : World.
Variable checker : plainTest.
Variable r : Request.
Variable t0 : Time.

(** X2. The direct probe whose dial succeeds answers 200 with a JSON
    object that has the member status, OK, and no other; it closes the
    connection at once and does nothing else on the network. *)
Theorem direct_success (c0 : ascii) (fragment host port : string) (c : Conn) :
  Path r = String c0 fragment ->
  SplitHostPort fragment = inl (host, port) ->
  snd (world_Dial net (plainTest_Dialer checker) "tcp" (JoinHostPort host port))
  = inl c ->
  returned (plain net checker r (initial t0)) = true
  /\ rw_code (w (final (plain net checker r (initial t0)))) = Some 200
  /\ rw_body (w (final (plain net checker r (initial t0))))
     = [[("status", "OK")]]
  /\ trace (final (plain net checker r (initial t0)))
     = [EvDial (plainTest_Dialer checker) "tcp" (JoinHostPort host port);
        EvClose c].
Proof.
  intros HP HS HD. run_handler. rewrite HP, HS, HD. repeat split.
Qed.

(** X3. The direct probe whose dial fails answers 502 with status
    HOST_CONNECT_FAIL and the text of the dial error, names no proxy, and
    closes nothing: the dial is its only event. *)
Theorem direct_dial_failure
    (c0 : ascii) (fragment host port : string) (err : error) :
  Path r = String c0 fragment ->
  SplitHostPort fragment = inl (host, port) ->
  snd (world_Dial net (plainTest_Dialer checker) "tcp" (JoinHostPort host port))
  = inr err ->
  returned (plain net checker r (initial t0)) = true
  /\ responded (final (plain net checker r (initial t0))) 502
       {| Status := "HOST_CONNECT_FAIL"; Error := err_Error err; Proxy := "" |}
  /\ trace (final (plain net checker r (initial t0)))
     = [EvDial (plainTest_Dialer checker) "tcp" (JoinHostPort host port)]
  /\ closes (trace (final (plain net checker r (initial t0)))) = [].
Proof.
  intros HP HS HD. run_handler. rewrite HP, HS, HD. repeat split.
Qed.

(** X4. For a fragment that parses and either has no opening bracket or
    has a colon in its host, the address the direct probe dials is the
    fragment itself, byte for byte. *)
Theorem direct_dials_fragment (c0 : ascii) (fragment host port : string) :
  Path r = String c0 fragment ->
  SplitHostPort fragment = inl (host, port) ->
  Bytes.occurs "[" fragment = false \/ Bytes.occurs ":" host = true ->
  dials (trace (final (plain net checker r (initial t0))))
  = [(plainTest_Dialer checker, "tcp", fragment)].
Proof.
  intros HP HS Hor. pose proof (Join_Split fragment host port HS Hor) as HJ.
  run_handler. rewrite HP, HS, HJ.
  destruct (snd (world_Dial net (plainTest_Dialer checker) "tcp" fragment));
    reflexivity.
Qed.

End Direct.

Lemma direct_success_witness :
  let net := world 0 (inl 7%nat) (inr (otherError "unexpected EOF")) in
  let out := plain net (checkerOf (5 * second)) (direct "/example.com:80")
               (initial 0) in
  SplitHostPort "example.com:80" = inl ("example.com", "80")
  /\ rw_code (w (final out)) = Some 200
  /\ rw_body (w (final out)) = [[("status", "OK")]]
  /\ trace (final out)
     = [EvDial {| Dialer_Timeout := 5 * second; KeepAlive := 0 |}
          "tcp" "example.com:80";
        EvClose 7%nat].
Proof.
  intros net out. split; [reflexivity|].
  destruct (direct_success net (checkerOf (5 * second)) (direct "/example.com:80")
              0 "/" "example.com:80" "example.com" "80" 7%nat
              eq_refl eq_refl eq_refl) as (_ & Hcode & Hbody & Htrace).
  split; [exact Hcode|]. split; [exact Hbody|exact Htrace].
Defined.

Lemma direct_dial_failure_witness :
  let err := netError false "dial tcp 127.0.0.1:1: connect: connection refused" in
  let net := world 0 (inr err) (inr (otherError "unexpected EOF")) in
  let out := plain net (checkerOf (5 * second)) (direct "/127.0.0.1:1")
               (initial 0) in
  SplitHostPort "127.0.0.1:1" = inl ("127.0.0.1", "1")
  /\ responded (final out) 502
       {| Status := "HOST_CONNECT_FAIL";
          Error := "dial tcp 127.0.0.1:1: connect: connection refused";
          Proxy := "" |}
  /\ closes (trace (final out)) = [].
Proof.
  intros err net out. split; [reflexivity|].
  destruct (direct_dial_failure net (checkerOf (5 * second))
              (direct "/127.0.0.1:1") 0 "/" "127.0.0.1:1" "127.0.0.1" "1" err
              eq_refl eq_refl eq_refl) as (_ & Hresp & _ & Hcl).
  split; [exact Hresp|exact Hcl].
Defined.

Lemma direct_dials_fragment_witness :
  let net := world 0 (inl 7%nat) (inr (otherError "unexpected EOF")) in
  SplitHostPort "[2001:db8::1]:443" = inl ("2001:db8::1", "443")
  /\ dials (trace (final (plain net (checkerOf (5 * second))
                            (direct "/[2001:db8::1]:443") (initial 0))))
     = [({| Dialer_Timeout := 5 * second; KeepAlive := 0 |}, "tcp",
         "[2001:db8::1]:443")].
Proof.
  intros net. split; [reflexivity|].
  apply (direct_dials_fragment net (checkerOf (5 * second))
           (direct "/[2001:db8::1]:443") 0 "/" "[2001:db8::1]:443"
           "2001:db8::1" "443" eq_refl eq_refl).
  right. reflexivity.
Defined.

(** Brackets around a host without a colon are not dialled. *)
Example direct_drops_brackets :
  dials (trace (final (plain (world 0 (inl 7%nat) (inr (otherError "unexpected EOF")))
                         (checkerOf (5 * second)) (direct "/[localhost]:80")
                         (initial 0))))
  = [({| Dialer_Timeout := 5 * second; KeepAlive := 0 |}, "tcp", "localhost:80")].
Proof. reflexivity. Qed.

(** ** The proxy probe: what goes over the wire *)

Section Wire.

Variable net : World.
Variable p : proxyHandler.
Variable r : Request.
Variable t0 : Time.

(** X5. With the target parsed and the proxy dialled, the probe writes
    once, to the connection it dialled, the CONNECT line for the parsed host
    and port; its one dial goes to the proxy, never to the target. *)
Theorem proxy_writes_once
    (c0 : ascii) (fragment host port : string) (c : Conn) :
  Path r = String c0 fragment ->
  SplitHostPort fragment = inl (host, port) ->
  snd (world_Dial net (dialerOf p) "tcp" (proxyOf r)) = inl c ->
  writes (trace (final (proxyHandler_ServeHTTP net p r (initial t0))))
  = [(c, connectRequest host port)]
  /\ dials (trace (final (proxyHandler_ServeHTTP net p r (initial t0))))
     = [(dialerOf p, "tcp", proxyOf r)].
Proof.
  intros HP HS HD. revert HD. run_handler. intros HD. rewrite HP, HS, HD.
  destruct (0 <? Timeout p);
    read_cases net c; split; reflexivity.
Qed.

(** X6. For a target written with brackets, as an IPv6 literal is, the
    CONNECT line names the host without them. *)
Theorem proxy_connect_bracketed (c0 : ascii) (host port : string) (c : Conn) :
  Path r = String c0 ("[" ++ host ++ "]:" ++ port) ->
  Bytes.occurs "[" host = false ->
  Bytes.occurs "]" host = false ->
  Bytes.occurs ":" port = false ->
  Bytes.occurs "[" port = false ->
  Bytes.occurs "]" port = false ->
  snd (world_Dial net (dialerOf p) "tcp" (proxyOf r)) = inl c ->
  writes (trace (final (proxyHandler_ServeHTTP net p r (initial t0))))
  = [(c, "CONNECT " ++ host ++ ":" ++ port ++ " HTTP/1.1"
         ++ String "010" (String "010" EmptyString))].
Proof.
  intros HP Hhl Hhr Hpc Hpl Hpr HD.
  pose proof (SplitHostPort_bracketed host port Hhl Hhr Hpc Hpl Hpr) as HS.
  revert HD. run_handler. intros HD. rewrite HP, HS, HD.
  destruct (0 <? Timeout p);
    read_cases net c; reflexivity.
Qed.

(** X13. With the timeout zero the dialer has no timeout, the probe sets
    no deadline and goes on all the same: dial, write, read. *)
Theorem proxy_without_timeout
    (c0 : ascii) (fragment host port : string) (c : Conn) :
  Path r = String c0 fragment ->
  SplitHostPort fragment = inl (host, port) ->
  snd (world_Dial net (dialerOf p) "tcp" (proxyOf r)) = inl c ->
  Timeout p = 0 ->
  Dialer_Timeout (dialerOf p) = 0
  /\ deadlines c (trace (final (proxyHandler_ServeHTTP net p r (initial t0)))) = []
  /\ exists rest,
       trace (final (proxyHandler_ServeHTTP net p r (initial t0)))
       = EvDial (dialerOf p) "tcp" (proxyOf r)
         :: EvWrite c (connectRequest host port)
         :: EvReadResponse c :: rest.
Proof.
  intros HP HS HD Hzero. split; [exact Hzero|].
  revert HD. run_handler. intros HD. rewrite HP, HS, HD.
  replace (0 <? Timeout p) with false by (rewrite Hzero; reflexivity).
  read_cases net c; (split; [reflexivity|eexists; reflexivity]).
Qed.

End Wire.

Lemma proxy_writes_once_witness :
  let net := world 0 (inl 7%nat) (inl {| StatusCode := 200; Header := [] |}) in
  let r := viaProxy "/example.com:80" ["10.0.0.1:3128"] in
  let tr := trace (final (proxyHandler_ServeHTTP net {| Timeout := 5 * second |}
                            r (initial 0))) in
  SplitHostPort "example.com:80" = inl ("example.com", "80")
  /\ writes tr = [(7%nat, connectRequest "example.com" "80")]
  /\ dials tr = [({| Dialer_Timeout := 5 * second; KeepAlive := 0 |}, "tcp",
                  "10.0.0.1:3128")].
Proof.
  intros net r tr. split; [reflexivity|].
  exact (proxy_writes_once net {| Timeout := 5 * second |} r 0
           "/" "example.com:80" "example.com" "80" 7%nat
           eq_refl eq_refl eq_refl).
Defined.

Lemma proxy_connect_bracketed_witness :
  let net := world 0 (inl 7%nat) (inl {| StatusCode := 200; Header := [] |}) in
  let r := viaProxy "/[::1]:80" ["10.0.0.1:3128"] in
  Path r = String "/" ("[" ++ "::1" ++ "]:" ++ "80")
  /\ writes (trace (final (proxyHandler_ServeHTTP net {| Timeout := 5 * second |}
                             r (initial 0))))
     = [(7%nat, "CONNECT ::1:80 HTTP/1.1"
                ++ String "010" (String "010" EmptyString))].
Proof.
  intros net r. split; [reflexivity|].
  exact (proxy_connect_bracketed net {| Timeout := 5 * second |} r 0
           "/" "::1" "80" 7%nat
           eq_refl eq_refl eq_refl eq_refl eq_refl eq_refl eq_refl).
Defined.

Lemma proxy_without_timeout_witness :
  let net := world 0 (inl 7%nat) (inl {| StatusCode := 200; Header := [] |}) in
  let r := viaProxy "/example.com:80" ["10.0.0.1:3128"] in
  Timeout {| Timeout := 0 |} = 0
  /\ deadlines 7%nat
       (trace (final (proxyHandler_ServeHTTP net {| Timeout := 0 |} r (initial 0))))
     = [].
Proof.
  intros net r. split; [reflexivity|].
  exact (proj1 (proj2 (proxy_without_timeout net {| Timeout := 0 |} r 0
                         "/" "example.com:80" "example.com" "80" 7%nat
                         eq_refl eq_refl eq_refl eq_refl))).
Defined.

(** ** Parse errors *)

Lemma splitHost_error (hostport : string) (i : nat) (e : AddrError) :
  splitHost hostport i = inr e -> Addr e = hostport /\ Err e ∈ splitReasons.
Proof.
  unfold splitHost, addrErr, splitReasons. split_cases;
    intros H; inversion H; subst; cbn [Err Addr];
    (split; [reflexivity|]); rewrite !elem_of_cons; tauto.
Qed.

(** An error of the parser carries the whole input and one of five
    reasons. *)
Lemma SplitHostPort_error (hostport : string) (e : AddrError) :
  SplitHostPort hostport = inr e -> Addr e = hostport /\ Err e ∈ splitReasons.
Proof.
  unfold SplitHostPort, addrErr.
  destruct (Bytes.LastIndexByteString hostport ":") as [i|].
  - destruct (splitHost hostport i) as [[[host j] k]|e'] eqn:Hs.
    + unfold splitReasons. split_cases; intros H; inversion H; subst;
        cbn [Err Addr]; (split; [reflexivity|]); rewrite !elem_of_cons; tauto.
    + intros H; inversion H; subst. eapply splitHost_error, Hs.
  - intros H; inversion H; subst; cbn [Err Addr].
    split; [reflexivity|]. unfold splitReasons. rewrite !elem_of_cons. tauto.
Qed.

(** X7. A target that does not parse is answered, by either probe, with
    400 and an error text that quotes the fragment as it came, followed by
    one of the five reasons of the parser. *)
Theorem parse_error_text
    (net : World) (checker : plainTest) (p : proxyHandler) (r : Request)
    (t0 : Time) (c0 a : ascii) (rest : string) (e : AddrError) :
  Path r = String c0 (String a rest) ->
  SplitHostPort (String a rest) = inr e ->
  exists reason,
    reason ∈ splitReasons
    /\ responded (final (plain net checker r (initial t0))) 400
         {| Status := "INVALID_HOST";
            Error := "address " ++ String a rest ++ ": " ++ reason;
            Proxy := "" |}
    /\ responded (final (proxyHandler_ServeHTTP net p r (initial t0))) 400
         {| Status := "BAD_URL";
            Error := "address " ++ String a rest ++ ": " ++ reason;
            Proxy := proxyOf r |}.
Proof.
  intros HP HS. destruct (SplitHostPort_error _ _ HS) as [Ha He].
  exists (Err e). split; [exact He|].
  assert (Ht : AddrError_Error e = "address " ++ String a rest ++ ": " ++ Err e).
  { unfold AddrError_Error. rewrite Ha. reflexivity. }
  rewrite <- Ht. run_handler. rewrite HP, HS. repeat split.
Qed.

Lemma parse_error_text_witness :
  let net := world 0 (inl 7%nat) (inr (otherError "unexpected EOF")) in
  SplitHostPort "a:b:80" = inr {| Err := tooManyColons; Addr := "a:b:80" |}
  /\ exists reason,
       reason ∈ splitReasons
       /\ responded (final (plain net (checkerOf (5 * second)) (direct "/a:b:80")
                              (initial 0))) 400
            {| Status := "INVALID_HOST";
               Error := "address " ++ "a:b:80" ++ ": " ++ reason; Proxy := "" |}
       /\ responded (final (proxyHandler_ServeHTTP net {| Timeout := 5 * second |}
                              (direct "/a:b:80") (initial 0))) 400
            {| Status := "BAD_URL";
               Error := "address " ++ "a:b:80" ++ ": " ++ reason;
               Proxy := proxyOf (direct "/a:b:80") |}.
Proof.
  intros net. split; [reflexivity|].
  exact (parse_error_text net (checkerOf (5 * second)) {| Timeout := 5 * second |}
           (direct "/a:b:80") 0 "/" "a" ":b:80"
           {| Err := tooManyColons; Addr := "a:b:80" |} eq_refl eq_refl).
Defined.

(** The path of one slash has the empty fragment: the text is the bare
    reason. *)
Example empty_fragment_text :
  responded (final (plain (world 0 (inl 7%nat) (inr (otherError "unexpected EOF")))
                      (checkerOf (5 * second)) (direct "/") (initial 0))) 400
    {| Status := "INVALID_HOST"; Error := "missing port in address"; Proxy := "" |}.
Proof. split; reflexivity. Qed.

(** ** The function [writeJSON] *)

(** X16. [writeJSON] puts the JSON content type in place of any other and
    leaves every other header, the events and the clock as they are.  On a
    writer whose header is written it returns and keeps the status; on a
    fresh writer it returns exactly when the code has three digits, with
    that code as the status, or with 200 after an interim response when
    the code is an interim 1xx code.  When it returns it has encoded one
    object more to the writer; when it panics, no status and no object. *)
Theorem writeJSON_frame (code : Z) (v : result) (s : State) :
  rw_Header (w (final (writeJSON code v s))) !! "Content-Type" = Some [jsonType]
  /\ (forall k, k <> "Content-Type" ->
        rw_Header (w (final (writeJSON code v s))) !! k = rw_Header (w s) !! k)
  /\ trace (final (writeJSON code v s)) = trace s
  /\ now (final (writeJSON code v s)) = now s
  /\ returned (writeJSON code v s)
     = match rw_code (w s) with
       | Some _ => true
       | None => validCode code
       end
  /\ (returned (writeJSON code v s) = true ->
      rw_code (w (final (writeJSON code v s)))
      = Some (match rw_code (w s) with
              | Some sent => sent
              | None => if interimCode code then StatusOK else code
              end)
      /\ rw_body (w (final (writeJSON code v s)))
         = (rw_body (w s) ++ [Marshal v])%list
      /\ rw_interim (w (final (writeJSON code v s)))
         = (rw_interim (w s)
            ++ match rw_code (w s) with
               | Some _ => []
               | None => if interimCode code then [code] else []
               end)%list)
  /\ (returned (writeJSON code v s) = false ->
      rw_code (w (final (writeJSON code v s))) = None
      /\ rw_body (w (final (writeJSON code v s))) = rw_body (w s)
      /\ rw_interim (w (final (writeJSON code v s))) = rw_interim (w s)).
Proof.
  destruct s as [t tr [h sent body interim]]. run_handler.
  destruct sent as [sent|];
    [|destruct (validCode code); [destruct (interimCode code)|]];
    cbn [final returned w rw_Header rw_code rw_body rw_interim trace now];
    rewrite ?app_nil_r;
    repeat split; intros; try discriminate; try reflexivity.
  all: rewrite lookup_Header_Set, canonical_content_type.
  all: first [by rewrite decide_True | by rewrite decide_False].
Qed.

(** [writeJSON] with the status of a proxy that has two digits. *)
Example writeJSON_panics :
  writeJSON 99 {| Status := "OK"; Error := ""; Proxy := "10.0.0.1:3128" |}
    (initial 0)
  = Panicked "invalid WriteHeader code 99"
      {| now := 0; trace := [];
         w := {| rw_Header := {[ "Content-Type" := [jsonType] ]};
                 rw_code := None; rw_body := []; rw_interim := [] |} |}.
Proof. reflexivity. Qed.

(** ** The dispatcher, for every request *)

Lemma Header_Set_empty (key value : string) :
  Header_Set ∅ key value = {[ CanonicalMIMEHeaderKey key := [value] ]}.
Proof. unfold Header_Set. apply insert_empty. Qed.

(** X8. A request with a proxy value that is not empty is served by the
    proxy probe, built with the timeout of [Run]: every answer names that
    proxy, and its status is never INVALID_HOST. *)
Theorem proxy_value_runs_tunnel
    (net : World) (timeout : Duration) (r : Request) :
  proxyOf r <> "" ->
  (forall s0,
      Run net timeout r s0
      = defer (logRequest r (now s0))
          (proxyHandler_ServeHTTP net {| Timeout := timeout |} r) s0)
  /\ (forall t0 obj,
         obj ∈ rw_body (w (final (Run net timeout r (initial t0)))) ->
         exists v,
           obj = Marshal v
           /\ Proxy v = proxyOf r
           /\ Status v ∈ ["OK"; "BAD_URL"; "PROXY_UNREACHABLE";
                          "PROXY_CONNECT_ERROR"; "HOST_CONNECT_FAIL"]
           /\ Status v <> "INVALID_HOST").
Proof.
  intros Hne. apply String.eqb_neq in Hne. split.
  - intros s0. cbv [Run]. rewrite Hne. reflexivity.
  - intros t0 obj. run_handler. cbn [Timeout]. fold (proxyOf r).
    rewrite Hne. cbn [negb].
    destruct (Path r) as [|c0 fragment].
    { cbn. intros H. by apply elem_of_nil in H. }
    destruct (SplitHostPort fragment) as [[host port]|e].
    + match goal with
      | |- context [world_Dial net ?d ?n ?a] =>
          destruct (snd (world_Dial net d n a)) as [c|err]
      end.
      * destruct (0 <? timeout);
          read_cases net c;
          cbn [app]; intros H;
          first [by apply elem_of_nil in H
                |apply list_elem_of_singleton in H; subst obj;
                 eexists; (split; [reflexivity|]); cbn [Status Proxy];
                 (split; [reflexivity|]);
                 (split; [rewrite !elem_of_cons; tauto|discriminate])].
      * cbn [app]; intros H; apply list_elem_of_singleton in H; subst obj;
          eexists; (split; [reflexivity|]); cbn [Status Proxy];
          (split; [reflexivity|]);
          (split; [rewrite !elem_of_cons; tauto|discriminate]).
    + cbn [app]; intros H; apply list_elem_of_singleton in H; subst obj;
        eexists; (split; [reflexivity|]); cbn [Status Proxy];
        (split; [reflexivity|]);
        (split; [rewrite !elem_of_cons; tauto|discriminate]).
Qed.

Lemma proxy_value_runs_tunnel_witness :
  let net := world 0 (inl 7%nat) (inl {| StatusCode := 200; Header := [] |}) in
  let r := viaProxy "/example.com:80" ["10.0.0.1:3128"] in
  proxyOf r <> ""
  /\ Run net (5 * second) r (initial 0)
     = defer (logRequest r 0)
         (proxyHandler_ServeHTTP net {| Timeout := 5 * second |} r) (initial 0).
Proof.
  intros net r.
  assert (Hne : proxyOf r <> "") by discriminate.
  split; [exact Hne|].
  exact (proj1 (proxy_value_runs_tunnel net (5 * second) r Hne) (initial 0)).
Defined.

(** X9. For a request with a path, [Run] adds one event to those of the
    handler it picked, as the last: the log line, with the fragment, the
    proxy value and the time the handler took.  It changes nothing in the
    response and returns as the handler does. *)
Theorem Run_logs_last
    (net : World) (timeout : Duration) (r : Request) (s0 : State)
    (c0 : ascii) (fragment : string) :
  Path r = String c0 fragment ->
  returned (Run net timeout r s0) = returned (picked net timeout r s0)
  /\ trace (final (Run net timeout r s0))
     = (trace (final (picked net timeout r s0))
        ++ [EvLog [LogStr fragment; LogStr (proxyOf r);
                   LogDur (now (final (picked net timeout r s0)) - now s0)]])%list
  /\ w (final (Run net timeout r s0)) = w (final (picked net timeout r s0))
  /\ now (final (Run net timeout r s0)) = now (final (picked net timeout r s0)).
Proof.
  intros HP.
  cbv [Run picked logRequest mbind mret M_bind M_ret time_Now defer Path_1 emit].
  rewrite HP.
  destruct (negb (String.eqb (proxyOf r) ""));
    match goal with
    | |- context [match ?h s0 with _ => _ end] =>
        destruct (h s0) as [[] s'|msg s']
    end; repeat split.
Qed.

Lemma Run_logs_last_witness :
  let net := world (3 * second) (inl 7%nat) (inr (otherError "unexpected EOF")) in
  let r := direct "/example.com:80" in
  Path r = String "/" "example.com:80"
  /\ trace (final (Run net (5 * second) r (initial 0)))
     = [EvDial {| Dialer_Timeout := 5 * second; KeepAlive := 0 |}
          "tcp" "example.com:80";
        EvClose 7%nat;
        EvLog [LogStr "example.com:80"; LogStr ""; LogDur (3 * second)]].
Proof.
  intros net r. split; [reflexivity|].
  destruct (Run_logs_last net (5 * second) r (initial 0) "/" "example.com:80"
              eq_refl) as (_ & Htrace & _).
  rewrite Htrace. reflexivity.
Defined.

(** X10. A request with an empty path makes [Run] panic on the slice of
    the path, whatever its query and whatever the network would do; the
    response writer, the events and the clock are as before. *)
Theorem Run_empty_path
    (net : World) (timeout : Duration) (r : Request) (s0 : State) :
  Path r = "" ->
  Run net timeout r s0 = Panicked "runtime error: slice bounds out of range [1:0]" s0.
Proof.
  intros HP.
  cbv [Run proxyHandler_ServeHTTP plain logRequest mbind mret M_bind M_ret
       time_Now defer Path_1 panic].
  rewrite HP. by destruct (negb (String.eqb (proxyOf r) "")).
Qed.

Lemma Run_empty_path_witness :
  let net := world 0 (inl 7%nat) (inl {| StatusCode := 200; Header := [] |}) in
  Path (viaProxy "" ["10.0.0.1:3128"]) = ""
  /\ Run net (5 * second) (viaProxy "" ["10.0.0.1:3128"]) (initial 0)
     = Panicked "runtime error: slice bounds out of range [1:0]" (initial 0).
Proof.
  intros net. split; [reflexivity|].
  exact (Run_empty_path net (5 * second) (viaProxy "" ["10.0.0.1:3128"])
           (initial 0) eq_refl).
Defined.

(** X11. A request with a path is answered at most once.  Either [Run]
    returns, with one status written and one object encoded under the JSON
    content type: status code and result status are one of the seven fixed
    pairs, with the content type as the only header, or the result is OK
    for a response read from the proxy whose status code has three digits,
    and the status is that code, or 200 when the code is an interim one.
    The writer sends the object when the status allows a body and the
    request is no HEAD request.  Or [Run] panics, with no status and no object, and then a
    response was read from the proxy whose status code has not three
    digits. *)
Theorem Run_answers_once
    (net : World) (timeout : Duration) (r : Request) (t0 : Time)
    (c0 : ascii) (fragment : string) :
  Path r = String c0 fragment ->
  (returned (Run net timeout r (initial t0)) = true
   /\ exists code v,
        responded (final (Run net timeout r (initial t0))) code v
        /\ rw_Header (w (final (Run net timeout r (initial t0)))) !! "Content-Type"
           = Some [jsonType]
        /\ (forall method,
              wireBody method (w (final (Run net timeout r (initial t0))))
              = if bodyAllowedForStatus code && negb (String.eqb method "HEAD")
                then [Marshal v] else [])
        /\ ((code, Status v) ∈ fixedAnswers
            /\ bodyAllowedForStatus code = true
            /\ rw_Header (w (final (Run net timeout r (initial t0))))
               = {[ "Content-Type" := [jsonType] ]}
            \/ exists c res,
                 snd (world_ReadResponse net c) = inl res
                 /\ validCode (StatusCode res) = true
                 /\ code = (if interimCode (StatusCode res)
                            then StatusOK else StatusCode res)
                 /\ Status v = "OK"
                 /\ proxyOf r <> ""))
  \/ (returned (Run net timeout r (initial t0)) = false
      /\ rw_code (w (final (Run net timeout r (initial t0)))) = None
      /\ rw_body (w (final (Run net timeout r (initial t0)))) = []
      /\ exists c res,
           snd (world_ReadResponse net c) = inl res
           /\ validCode (StatusCode res) = false
           /\ proxyOf r <> "").
Proof.
  intros HP. unfold wireBody. run_handler. cbn [Timeout]. fold (proxyOf r).
  rewrite HP.
  assert (Hfixed : forall (h : gmap string (list string)) code status,
             h = ∅ -> (code, status) ∈ fixedAnswers ->
             bodyAllowedForStatus code = true ->
             Header_Set h "content-type" "application/json;charset=utf-8"
               !! "Content-Type" = Some [jsonType]
             /\ Header_Set h "content-type" "application/json;charset=utf-8"
                = {[ "Content-Type" := [jsonType] ]}).
  { intros h code status -> _ _.
    rewrite Header_Set_empty, canonical_content_type.
    split; [apply lookup_singleton_eq|reflexivity]. }
  assert (Hct : forall h : gmap string (list string),
             Header_Set h "content-type" "application/json;charset=utf-8"
               !! "Content-Type" = Some [jsonType]).
  { intros h. rewrite lookup_Header_Set, canonical_content_type.
    by rewrite decide_True. }
  destruct (String.eqb_spec (proxyOf r) "") as [Heq|Hne]; cbn [negb].
  - left. destruct (SplitHostPort fragment) as [[host port]|e].
    + match goal with
      | |- context [world_Dial net ?d ?n ?a] =>
          destruct (snd (world_Dial net d n a)) as [c|err]
      end;
        (split; [reflexivity|]); eexists _, _;
        (split; [split; reflexivity|]); (split; [apply Hct|]);
        (split; [reflexivity|]); left;
        (split; [unfold fixedAnswers; cbn [Status]; rewrite !elem_of_cons; tauto|]);
        (split; [reflexivity|]);
        rewrite Header_Set_empty, canonical_content_type; reflexivity.
    + (split; [reflexivity|]); eexists _, _;
        (split; [split; reflexivity|]); (split; [apply Hct|]);
        (split; [reflexivity|]); left;
        (split; [unfold fixedAnswers; cbn [Status]; rewrite !elem_of_cons; tauto|]);
        (split; [reflexivity|]);
        rewrite Header_Set_empty, canonical_content_type; reflexivity.
  - destruct (SplitHostPort fragment) as [[host port]|e].
    + match goal with
      | |- context [world_Dial net ?d ?n ?a] =>
          destruct (snd (world_Dial net d n a)) as [c|err]
      end.
      * destruct (0 <? timeout);
          (destruct (snd (world_ReadResponse net c)) as [res|err] eqn:HR;
           [destruct (validCode (StatusCode res)) eqn:Hv;
            [destruct (interimCode (StatusCode res)) eqn:Hi|]
           |destruct (err_netTimeout err) as [[]|]]).
        all: try (right; repeat split; exists c, res; repeat split; assumption).
        all: left; (split; [reflexivity|]); eexists _, _;
          (split; [split; reflexivity|]); (split; [apply Hct|]).
        all: try (split; [reflexivity|]; left;
                  (split; [unfold fixedAnswers; cbn [Status];
                           rewrite !elem_of_cons; tauto|]);
                  (split; [reflexivity|]);
                  rewrite Header_Set_empty, canonical_content_type;
                  reflexivity).
        all: (split; [reflexivity|]); right; exists c, res;
          rewrite ?Hi; repeat split; assumption.
      * left. (split; [reflexivity|]); eexists _, _;
          (split; [split; reflexivity|]); (split; [apply Hct|]);
          (split; [reflexivity|]); left;
          (split; [unfold fixedAnswers; cbn [Status]; rewrite !elem_of_cons; tauto|]);
          (split; [reflexivity|]);
          rewrite Header_Set_empty, canonical_content_type; reflexivity.
    + left. (split; [reflexivity|]); eexists _, _;
        (split; [split; reflexivity|]); (split; [apply Hct|]);
        (split; [reflexivity|]); left;
        (split; [unfold fixedAnswers; cbn [Status]; rewrite !elem_of_cons; tauto|]);
        (split; [reflexivity|]);
        rewrite Header_Set_empty, canonical_content_type; reflexivity.
Qed.

Lemma Run_answers_once_witness :
  let net := world 0 (inl 7%nat) (inr (netError true "i/o timeout")) in
  let r := viaProxy "/example.com:80" ["10.0.0.1:3128"] in
  Path r = String "/" "example.com:80"
  /\ returned (Run net (5 * second) r (initial 0)) = true.
Proof.
  intros net r. split; [reflexivity|].
  destruct (Run_answers_once net (5 * second) r 0 "/" "example.com:80" eq_refl)
    as [[Hret _]|[Hret _]]; [exact Hret|discriminate Hret].
Defined.

(** X12. Serving a request, [Run] dials at most once, over tcp, with its
    timeout and keep-alive off; the connection a dial gives is closed once,
    and nothing is closed otherwise. *)
Theorem Run_one_dial
    (net : World) (timeout : Duration) (r : Request) (t0 : Time) :
  (dials (trace (final (Run net timeout r (initial t0)))) = []
   /\ closes (trace (final (Run net timeout r (initial t0)))) = [])
  \/ exists address,
       dials (trace (final (Run net timeout r (initial t0))))
       = [({| Dialer_Timeout := timeout; KeepAlive := 0 |}, "tcp", address)]
       /\ closes (trace (final (Run net timeout r (initial t0))))
          = match snd (world_Dial net
                         {| Dialer_Timeout := timeout; KeepAlive := 0 |}
                         "tcp" address) with
            | inl c => [c]
            | inr _ => []
            end.
Proof.
  run_handler. cbn [Timeout plainTest_Dialer]. fold (proxyOf r).
  destruct (Path r) as [|c0 fragment].
  { left. by destruct (negb (String.eqb (proxyOf r) "")). }
  destruct (negb (String.eqb (proxyOf r) ""));
    (destruct (SplitHostPort fragment) as [[host port]|e];
     [|left; split; reflexivity]);
    match goal with
    | |- context [world_Dial net ?d ?n ?a] =>
        right; exists a;
        destruct (snd (world_Dial net d n a)) as [c|err] eqn:HD
    end;
    try (split; reflexivity).
  all: repeat match goal with
         | |- context [if 0 <? ?t then _ else _] => destruct (0 <? t)
         | |- context [snd (world_ReadResponse ?n ?c)] =>
             destruct (snd (world_ReadResponse n c)) as [res|err]
         | |- context [err_netTimeout ?e] =>
             destruct (err_netTimeout e) as [[]|]
         | |- context [validCode (StatusCode ?x)] =>
             destruct (validCode (StatusCode x))
         | |- context [interimCode (StatusCode ?x)] =>
             destruct (interimCode (StatusCode x))
         end.
  all: split; reflexivity.
Qed.

(** ** The headers of an answer that passes a proxy response on *)

Lemma copyValues_values k0 vals h k vs :
  copyValues k0 vals h !! k = Some vs ->
  h !! k = Some vs
  \/ (CanonicalMIMEHeaderKey k0 = k /\ exists v, v ∈ vals /\ vs = [v]).
Proof.
  unfold copyValues. revert h.
  induction vals as [|x vals IH]; intros h H; simpl in H; [by left|].
  apply IH in H as [H|(Hk & v & Hv & ->)].
  - rewrite lookup_Header_Set in H.
    destruct (decide (CanonicalMIMEHeaderKey k0 = k)) as [Hk|_]; [|by left].
    inversion H; subst. right. split; [reflexivity|].
    exists x. split; [apply elem_of_cons; by left|reflexivity].
  - right. split; [exact Hk|]. exists v.
    split; [apply elem_of_cons; by right|reflexivity].
Qed.

(** Whatever the loop leaves in the map was there before or is one value
    of one header of the reply, under the canonical form of its name. *)
Lemma copyHeaders_values hdr h k vs :
  copyHeaders hdr h !! k = Some vs ->
  h !! k = Some vs
  \/ exists k0 vals v,
       (k0, vals) ∈ hdr /\ CanonicalMIMEHeaderKey k0 = k
       /\ v ∈ vals /\ vs = [v].
Proof.
  unfold copyHeaders. revert h.
  induction hdr as [|[k0 vals] hdr IH]; intros h H; simpl in H; [by left|].
  apply IH in H as [H|(k1 & vals1 & v & Hin & Hk & Hv & ->)].
  - rewrite lookup_Header_Del in H.
    destruct (decide (CanonicalMIMEHeaderKey "content-length" = k));
      [discriminate|].
    apply copyValues_values in H as [H|(Hk & v & Hv & ->)]; [by left|].
    right. exists k0, vals, v.
    split; [apply elem_of_cons; by left|]. by repeat split.
  - right. exists k1, vals1, v.
    split; [apply elem_of_cons; by right|]. by repeat split.
Qed.

Section Outbound.

Variable net : World.
Variable p : proxyHandler.
Variable r : Request.
Variable t0 : Time.

(** X14. On the answer that passes a proxy response on, every header has
    one value.  It is the JSON content type, or it stands under the
    canonical form of a name the proxy sent, is not Content-Length, and
    its value is one of the values the proxy sent under that name: the
    handler makes up no header. *)
Theorem outbound_header_values
    (c0 : ascii) (fragment host port : string) (c : Conn) (res : Response)
    (k : string) (vs : list string) :
  Path r = String c0 fragment ->
  SplitHostPort fragment = inl (host, port) ->
  snd (world_Dial net (dialerOf p) "tcp" (proxyOf r)) = inl c ->
  snd (world_ReadResponse net c) = inl res ->
  rw_Header (w (final (proxyHandler_ServeHTTP net p r (initial t0)))) !! k
  = Some vs ->
  (k = "Content-Type" /\ vs = [jsonType])
  \/ (k <> "Content-Length"
      /\ exists k0 vals v,
           (k0, vals) ∈ Header res /\ CanonicalMIMEHeaderKey k0 = k
           /\ v ∈ vals /\ vs = [v]).
Proof.
  intros HP HS HD HR. revert HD. run_handler. intros HD. rewrite HP, HS, HD.
  assert (Hgoal : forall h : gmap string (list string),
             h = copyHeaders (Header res) ∅ ->
             Header_Set h "content-type" "application/json;charset=utf-8" !! k
             = Some vs ->
             (k = "Content-Type" /\ vs = [jsonType])
             \/ (k <> "Content-Length"
                 /\ exists k0 vals v,
                      (k0, vals) ∈ Header res /\ CanonicalMIMEHeaderKey k0 = k
                      /\ v ∈ vals /\ vs = [v])).
  { intros h -> H. rewrite lookup_Header_Set, canonical_content_type in H.
    destruct (decide ("Content-Type" = k)) as [<-|Hk].
    - left. inversion H. split; reflexivity.
    - right. split.
      + intros ->.
        rewrite copyHeaders_no_content_length in H by apply lookup_empty.
        discriminate.
      + apply copyHeaders_values in H as [H|H]; [|exact H].
        by rewrite lookup_empty in H. }
  destruct (0 <? Timeout p); rewrite HR; code_cases res;
    apply Hgoal; reflexivity.
Qed.

(** X15. With the keys of the reply distinct and canonical, a header that
    the proxy sent with several values is passed on with the last of them
    only: each value takes the place of the one before. *)
Theorem last_value_wins
    (c0 : ascii) (fragment host port : string) (c : Conn) (res : Response)
    (k : string) (vals : list string) (v : string) :
  Path r = String c0 fragment ->
  SplitHostPort fragment = inl (host, port) ->
  snd (world_Dial net (dialerOf p) "tcp" (proxyOf r)) = inl c ->
  snd (world_ReadResponse net c) = inl res ->
  NoDup (Header res).*1 ->
  (forall k', k' ∈ (Header res).*1 -> CanonicalMIMEHeaderKey k' = k') ->
  (k, vals) ∈ Header res ->
  last vals = Some v ->
  k <> "Content-Length" -> k <> "Content-Type" ->
  rw_Header (w (final (proxyHandler_ServeHTTP net p r (initial t0)))) !! k
  = Some [v].
Proof.
  intros HP HS HD HR Hnd Hcan Hin Hlast Hcl Hct.
  revert HD. run_handler. intros HD. rewrite HP, HS, HD.
  destruct (0 <? Timeout p); rewrite HR; code_cases res;
    rewrite lookup_Header_Set, canonical_content_type;
    rewrite decide_False by congruence;
    by apply (copyHeaders_lookup _ _ k vals v).
Qed.

End Outbound.

Lemma outbound_header_values_witness :
  let res := {| StatusCode := 200;
                Header := [("Content-Length", ["0"]); ("Via", ["1.1 a"; "1.1 b"])] |} in
  let net := world 0 (inl 7%nat) (inl res) in
  let r := viaProxy "/example.com:80" ["10.0.0.1:3128"] in
  let outbound :=
    rw_Header (w (final (proxyHandler_ServeHTTP net {| Timeout := 5 * second |} r
                           (initial 0)))) in
  outbound !! "Via" = Some ["1.1 b"]
  /\ (("Via" = "Content-Type" /\ ["1.1 b"] = [jsonType])
      \/ ("Via" <> "Content-Length"
          /\ exists k0 vals v,
               (k0, vals) ∈ Header res /\ CanonicalMIMEHeaderKey k0 = "Via"
               /\ v ∈ vals /\ ["1.1 b"] = [v])).
Proof.
  intros res net r outbound.
  assert (H : outbound !! "Via" = Some ["1.1 b"]) by (vm_compute; reflexivity).
  split; [exact H|].
  exact (outbound_header_values net {| Timeout := 5 * second |} r 0
           "/" "example.com:80" "example.com" "80" 7%nat res "Via" ["1.1 b"]
           eq_refl eq_refl eq_refl eq_refl H).
Defined.

Lemma last_value_wins_witness :
  let res := {| StatusCode := 200;
                Header := [("Content-Length", ["0"]); ("Via", ["1.1 a"; "1.1 b"])] |} in
  let net := world 0 (inl 7%nat) (inl res) in
  let r := viaProxy "/example.com:80" ["10.0.0.1:3128"] in
  NoDup (Header res).*1
  /\ last ["1.1 a"; "1.1 b"] = Some "1.1 b"
  /\ rw_Header (w (final (proxyHandler_ServeHTTP net {| Timeout := 5 * second |} r
                            (initial 0)))) !! "Via" = Some ["1.1 b"].
Proof.
  intros res net r.
  assert (Hnd : NoDup (Header res).*1).
  { cbn. repeat constructor; not_among. }
  split; [exact Hnd|]. split; [reflexivity|].
  refine (last_value_wins net {| Timeout := 5 * second |} r 0
            "/" "example.com:80" "example.com" "80" 7%nat res
            "Via" ["1.1 a"; "1.1 b"] "1.1 b"
            eq_refl eq_refl eq_refl eq_refl Hnd _ _ eq_refl _ _).
  - intros k Hk. cbn in Hk. rewrite !elem_of_cons, elem_of_nil in Hk.
    destruct Hk as [->|[->|[]]]; reflexivity.
  - cbn. apply elem_of_cons. right. apply elem_of_cons. by left.
  - discriminate.
  - discriminate.
Defined.
